(** * Inventory Management System: a shallow embedding of [app.py]

    The Flask application keeps two SQLite tables ([users], [products]) and
    exposes a handful of views.  This development embeds the views as pure
    functions over an explicit database value, together with the parts of
    the Python runtime ([str.strip], [int], [float]) and of SQLite (64-bit
    integers, [NOT NULL], [AUTOINCREMENT], [ORDER BY], aggregates) that the
    views rely on, and then states and proves properties of them.

    Conventions.
    - A Python [str] is a [string]; its characters are the code points
      0..255, so the only decimal digits are "0".."9".
    - A Python [int] is a [Z]; a Python [float] is a binary64 value,
      represented by [spec_float].
    - [created_at] is the reading of the database clock in whole seconds
      (the resolution of [CURRENT_TIMESTAMP]), as a [Z].
    - Rowids do not run out: [AUTOINCREMENT] is followed for as many
      insertions as one cares to make (the database itself gives up after
      2^63 - 1 of them).
    - The password hasher of [werkzeug.security] is a parameter; how long
      a call takes is not part of the embedding, which calls of it
      [login] makes is ([login_hash_calls]). *)

From Stdlib Require Import ZArith List String Ascii Bool Lia.
From Stdlib Require Import Floats.SpecFloat.
From Stdlib Require Import Sorting.Sorted Sorting.Permutation.
Import ListNotations.

Local Open Scope string_scope.
Local Open Scope list_scope.
Local Open Scope Z_scope.

(** ** Python builtins used by the views *)

Module Py.

Definition str := string.

(** [not s] for a string: the empty string is the only falsy one. *)
Definition truthy (s : str) : bool :=
  match s with
  | EmptyString => false
  | String _ _ => true
  end.

Definition code (c : ascii) : Z := Z.of_N (N_of_ascii c).

(** [str.isspace] on one character (code points below 256). *)
Definition isspace (c : ascii) : bool :=
  let n := code c in
  ((9 <=? n) && (n <=? 13)) || ((28 <=? n) && (n <=? 32))
  || (n =? 133) || (n =? 160).

Fixpoint lstrip_chars (l : list ascii) : list ascii :=
  match l with
  | c :: l' => if isspace c then lstrip_chars l' else l
  | [] => []
  end.

Definition rstrip_chars (l : list ascii) : list ascii :=
  rev (lstrip_chars (rev l)).

(** [s.strip()] *)
Definition strip (s : str) : str :=
  string_of_list_ascii (rstrip_chars (lstrip_chars (list_ascii_of_string s))).

(** *** Numeric literals

    [int(s)] and [float(s)] skip surrounding white space themselves, with
    a narrower notion of white space than [str.strip]: the ASCII blanks
    and, among the other code points, the Unicode spaces (the separators
    U+001C..U+001F are not skipped). *)

Definition isspace_num (c : ascii) : bool :=
  let n := code c in
  ((9 <=? n) && (n <=? 13)) || (n =? 32) || (n =? 133) || (n =? 160).

Fixpoint lstrip_num (l : list ascii) : list ascii :=
  match l with
  | c :: l' => if isspace_num c then lstrip_num l' else l
  | [] => []
  end.

Definition strip_num (l : list ascii) : list ascii :=
  rev (lstrip_num (rev (lstrip_num l))).

Definition digit_val (c : ascii) : option Z :=
  let n := code c in
  if (48 <=? n) && (n <=? 57) then Some (n - 48) else None.

(** [sign ::= "+" | "-"], optional; [true] stands for "-". *)
Definition read_sign (l : list ascii) : bool * list ascii :=
  match l with
  | "+"%char :: l' => (false, l')
  | "-"%char :: l' => (true, l')
  | _ => (false, l)
  end.

(** The tail of a digit part: [(["_"] digit)*], longest match.  The
    digits read so far are accumulated most significant first. *)
Fixpoint read_digits_tail (acc : list Z) (l : list ascii)
  : list Z * list ascii :=
  match l with
  | c :: l' =>
      match digit_val c with
      | Some d => read_digits_tail (acc ++ [d]) l'
      | None =>
          match c, l' with
          | "_"%char, c' :: l'' =>
              match digit_val c' with
              | Some d => read_digits_tail (acc ++ [d]) l''
              | None => (acc, l)
              end
          | _, _ => (acc, l)
          end
      end
  | [] => (acc, [])
  end.

(** [digitpart ::= digit (["_"] digit)*]; [None] when the input does
    not start with a digit. *)
Definition read_digitpart (l : list ascii) : option (list Z * list ascii) :=
  match l with
  | c :: l' =>
      match digit_val c with
      | Some d => Some (read_digits_tail [d] l')
      | None => None
      end
  | [] => None
  end.

Definition decimal_value (ds : list Z) : Z :=
  fold_left (fun acc d => 10 * acc + d) ds 0.

(** [int(s)] for a string argument, base 10.  [None] stands for
    [ValueError].  [max_str_digits] is the interpreter's limit on the
    number of digits of a literal ([sys.get_int_max_str_digits()], 4300
    unless configured otherwise); 0 turns the limit off. *)
Definition int (max_str_digits : nat) (s : str) : option Z :=
  let '(neg, l) := read_sign (strip_num (list_ascii_of_string s)) in
  match read_digitpart l with
  | Some (ds, []) =>
      if negb (Nat.eqb max_str_digits 0)
         && Nat.ltb max_str_digits (List.length ds)
      then None
      else Some (if neg then - decimal_value ds else decimal_value ds)
  | _ => None
  end.

(** *** Floats *)

Definition float := spec_float.

Definition prec : Z := 53.
Definition emax : Z := 1024.

Definition zero : float := S754_zero false.

(** [x < y], [x <= y] and [x == y] on floats; all three are false when
    an operand is NaN. *)
Definition float_lt (x y : float) : bool := SFltb x y.
Definition float_le (x y : float) : bool := SFleb x y.
Definition float_eq (x y : float) : bool := SFeqb x y.

(** The binary64 value nearest to [(-1)^neg * m * 10^e] (ties to even),
    with overflow to an infinity and underflow to a signed zero. *)
Definition float_of_decimal (neg : bool) (m e : Z) : float :=
  match m with
  | Zpos p =>
      if 0 <=? e then
        binary_round prec emax neg (p * Z.to_pos (10 ^ e))%positive 0
      else
        let '(mz, ez, lz) :=
          SFdiv_core_binary prec emax (Zpos p) 0 (10 ^ (- e)) 0 in
        binary_round_aux prec emax neg mz ez lz
  | _ => S754_zero neg
  end.

Definition lower (c : ascii) : ascii :=
  let n := code c in
  if (65 <=? n) && (n <=? 90) then ascii_of_N (Z.to_N (n + 32)) else c.

Definition is_exp_mark (c : ascii) : bool :=
  Ascii.eqb c "e" || Ascii.eqb c "E".

(** [exponent ::= ("e" | "E") [sign] digitpart], optional, followed by
    the end of the input.  [None] when the input is neither empty nor
    a complete exponent. *)
Definition read_exponent (l : list ascii) : option Z :=
  match l with
  | [] => Some 0
  | c :: l' =>
      if is_exp_mark c then
        let '(neg, l'') := read_sign l' in
        match read_digitpart l'' with
        | Some (ds, []) =>
            Some (if neg then - decimal_value ds else decimal_value ds)
        | _ => None
        end
      else None
  end.

(** [floatnumber ::= number [exponent]] with
    [number ::= [digitpart] "." digitpart | digitpart ["."]]. *)
Definition read_floatnumber (neg : bool) (l : list ascii) : option float :=
  let '(ip, l1) :=
    match read_digitpart l with
    | Some (ds, r) => (Some ds, r)
    | None => (None, l)
    end in
  let '(fp, l2) :=
    match l1 with
    | "."%char :: r =>
        match read_digitpart r with
        | Some (ds, r') => (Some (Some ds), r')
        | None => (Some None, r)
        end
    | _ => (None, l1)
    end in
  let digits :=
    match ip, fp with
    | Some i, Some (Some f) => Some (i, f)
    | Some i, _ => Some (i, [])
    | None, Some (Some f) => Some ([], f)
    | None, _ => None
    end in
  match digits with
  | Some (i, f) =>
      match read_exponent l2 with
      | Some x =>
          Some (float_of_decimal neg (decimal_value (i ++ f))
                  (x - Z.of_nat (List.length f)))
      | None => None
      end
  | None => None
  end.

(** [float(s)] for a string argument.  [None] stands for [ValueError]. *)
Definition float_of_str (s : str) : option float :=
  let '(neg, l) := read_sign (strip_num (list_ascii_of_string s)) in
  let word := string_of_list_ascii (map lower l) in
  if String.eqb word "inf" || String.eqb word "infinity"
  then Some (S754_infinity neg)
  else if String.eqb word "nan" then Some S754_nan
  else read_floatnumber neg l.

(** *** Exceptions and formatted strings *)

(** The exceptions the views can meet, each with the text [str(e)] that
    the views interpolate into their messages. *)
Inductive exn :=
| TypeError (msg : str)
| OverflowError (msg : str)
| IntegrityError (msg : str)
| OperationalError (msg : str).

Definition exn_str (e : exn) : str :=
  match e with
  | TypeError m | OverflowError m | IntegrityError m | OperationalError m => m
  end.

(** An f-string, given as the list of its literal and interpolated parts. *)
Definition fstr (parts : list str) : str := String.concat "" parts.

(** The double-quote character, for use inside a message. *)
Definition dquote : str := String "034"%char EmptyString.

End Py.

(** ** The two tables

    [users(id, username UNIQUE, password)] and
    [products(id, product_name, category, price REAL, quantity INTEGER,
    created_at)]; every column that the views write is [NOT NULL]. *)

Module User.
Record row := { id : Z; username : Py.str; password : Py.str }.
End User.

Module Product.
Record row := {
  id : Z;
  product_name : Py.str;
  category : Py.str;
  price : Py.float;
  quantity : Z;
  created_at : Z
}.
End Product.

(** ** SQLite, as far as the statements of [app.py] go *)

Module Sqlite.

Import Py.

(** A database file: the rows of each table in rowid order, and for each
    table its entry in [sqlite_sequence] (the largest rowid handed out so
    far by [AUTOINCREMENT]; 0 before the first insertion). *)
Record database := {
  users : list User.row;
  users_seq : Z;
  products : list Product.row;
  products_seq : Z
}.

(** The file right after the [CREATE TABLE IF NOT EXISTS] statements. *)
Definition empty : database :=
  {| users := []; users_seq := 0; products := []; products_seq := 0 |}.

Definition set_users (rows : list User.row) (seq : Z) (d : database) :=
  {| users := rows; users_seq := seq;
     products := products d; products_seq := products_seq d |}.

Definition set_products (rows : list Product.row) (seq : Z) (d : database) :=
  {| users := users d; users_seq := users_seq d;
     products := rows; products_seq := seq |}.

(** The statements that the views execute, with their parameters. *)
Inductive statement :=
| InsertOrIgnoreUser (username password : str)
| SelectUserByUsername (username : str)
| SelectAdmin
| InsertUser (username password : str)
| SelectProductsNewestFirst
| SelectCountAndStock
| SelectLowStockCount (threshold : Z)
| InsertProduct (product_name category : str) (price : float) (quantity : Z)
| UpdateProduct (product_name category : str) (price : float) (quantity : Z)
    (id : Z)
| SelectProductById (id : Z)
| SelectProductNameById (id : Z)
| DeleteProductById (id : Z).

(** A connection: the committed file, the view of the open transaction,
    and the statements submitted so far. *)
Record connection := {
  disk : database;
  txn : database;
  log : list statement
}.

Definition connect (d : database) : connection :=
  {| disk := d; txn := d; log := [] |}.

Definition commit (c : connection) : connection :=
  {| disk := txn c; txn := txn c; log := log c |}.

(** Closing drops whatever was not committed. *)
Definition close (c : connection) : database := disk c.

Definition submit (s : statement) (c : connection) : connection :=
  {| disk := disk c; txn := txn c; log := log c ++ [s] |}.

Definition write (d : database) (c : connection) : connection :=
  {| disk := disk c; txn := d; log := log c |}.

(** *** Values *)

Definition INT64_MIN : Z := -9223372036854775808.
Definition INT64_MAX : Z := 9223372036854775807.

Definition fits_int64 (n : Z) : bool := (INT64_MIN <=? n) && (n <=? INT64_MAX).

(** Binding a Python [int] to a parameter. *)
Definition bind_int (n : Z) : exn + Z :=
  if fits_int64 n then inr n
  else inl (OverflowError "Python int too large to convert to SQLite INTEGER").

(** Binding a Python [float] to a parameter bound for a REAL column: NaN
    becomes NULL ([None]), and the two zeros are stored alike. *)
Definition bind_real (x : float) : option float :=
  match x with
  | S754_nan => None
  | S754_zero _ => Some (S754_zero false)
  | _ => Some x
  end.

(** The rowid that [AUTOINCREMENT] gives to the next row. *)
Definition next_rowid (seq : Z) (ids : list Z) : Z :=
  Z.max seq (fold_right Z.max 0 ids) + 1.

(** *** Aggregates and ordering *)

Definition count {A} (rows : list A) : Z := Z.of_nat (List.length rows).

(** The running total of [SUM] over integers; [None] on overflow. *)
Fixpoint sum_int64 (acc : Z) (l : list Z) : option Z :=
  match l with
  | [] => Some acc
  | q :: l' =>
      if fits_int64 (acc + q) then sum_int64 (acc + q) l' else None
  end.

(** [SUM(x)]: NULL over no rows, an error when the total leaves the
    64-bit range. *)
Definition sum (l : list Z) : exn + option Z :=
  match l with
  | [] => inr None
  | _ =>
      match sum_int64 0 l with
      | Some s => inr (Some s)
      | None => inl (OperationalError "integer overflow")
      end
  end.

Definition coalesce (v : option Z) (default : Z) : Z :=
  match v with
  | Some x => x
  | None => default
  end.

(** [ORDER BY created_at DESC]: rows with equal keys keep the order of
    the scan. *)
Fixpoint insert_desc (x : Product.row) (l : list Product.row)
  : list Product.row :=
  match l with
  | [] => [x]
  | y :: l' =>
      if Product.created_at y <=? Product.created_at x then x :: l
      else y :: insert_desc x l'
  end.

Definition order_by_created_at_desc (rows : list Product.row)
  : list Product.row :=
  fold_right insert_desc [] rows.

(** *** The statements on [users] *)

Definition has_username (name : str) (u : User.row) : bool :=
  String.eqb (User.username u) name.

(** [SELECT * FROM users WHERE username = ?], then [fetchone()]. *)
Definition select_user_by_username (name : str) (c : connection)
  : option User.row * connection :=
  (find (has_username name) (users (txn c)),
   submit (SelectUserByUsername name) c).

(** [SELECT * FROM users WHERE username = 'admin'], then [fetchone()]. *)
Definition select_admin (c : connection) : option User.row * connection :=
  (find (has_username "admin") (users (txn c)), submit SelectAdmin c).

(** [INSERT OR IGNORE INTO users (username, password) VALUES (?, ?)]: a
    row whose username is taken is dropped silently; the rowid reserved
    for it is used up all the same. *)
Definition insert_or_ignore_user (name pw : str) (c : connection)
  : connection :=
  let d := txn c in
  let i := next_rowid (users_seq d) (map User.id (users d)) in
  let rows :=
    if existsb (has_username name) (users d) then users d
    else users d ++ [{| User.id := i; User.username := name;
                        User.password := pw |}] in
  write (set_users rows i d) (submit (InsertOrIgnoreUser name pw) c).

(** [INSERT INTO users (username, password) VALUES (?, ?)] *)
Definition insert_user (name pw : str) (c : connection)
  : (exn + unit) * connection :=
  let d := txn c in
  let c' := submit (InsertUser name pw) c in
  if existsb (has_username name) (users d) then
    (inl (IntegrityError "UNIQUE constraint failed: users.username"), c')
  else
    let i := next_rowid (users_seq d) (map User.id (users d)) in
    let r := {| User.id := i; User.username := name; User.password := pw |} in
    (inr tt, write (set_users (users d ++ [r]) i d) c').

(** *** The statements on [products] *)

Definition has_id (i : Z) (p : Product.row) : bool := Product.id p =? i.

(** [SELECT * FROM products ORDER BY created_at DESC], [fetchall()]. *)
Definition select_products_newest_first (c : connection)
  : list Product.row * connection :=
  (order_by_created_at_desc (products (txn c)),
   submit SelectProductsNewestFirst c).

(** [SELECT COUNT( * ) as total_products, COALESCE(SUM(quantity), 0) as
    total_stock FROM products] *)
Definition select_count_and_stock (c : connection)
  : (exn + Z * Z) * connection :=
  let rows := products (txn c) in
  let c' := submit SelectCountAndStock c in
  match sum (map Product.quantity rows) with
  | inr s => (inr (count rows, coalesce s 0), c')
  | inl e => (inl e, c')
  end.

(** [SELECT COUNT( * ) as low_stock_count FROM products WHERE quantity < ?] *)
Definition select_low_stock_count (threshold : Z) (c : connection)
  : (exn + Z) * connection :=
  let c' := submit (SelectLowStockCount threshold) c in
  match bind_int threshold with
  | inr t =>
      (inr (count (filter (fun p => Product.quantity p <? t)
                     (products (txn c)))), c')
  | inl e => (inl e, c')
  end.

(** [INSERT INTO products (product_name, category, price, quantity)
    VALUES (?, ?, ?, ?)]; [created_at] defaults to [CURRENT_TIMESTAMP],
    here [now]. *)
Definition insert_product (name cat : str) (price : float) (quantity : Z)
  (now : Z) (c : connection) : (exn + unit) * connection :=
  let d := txn c in
  let c' := submit (InsertProduct name cat price quantity) c in
  match bind_int quantity with
  | inl e => (inl e, c')
  | inr q =>
      match bind_real price with
      | None =>
          (inl (IntegrityError "NOT NULL constraint failed: products.price"),
           c')
      | Some x =>
          let i := next_rowid (products_seq d) (map Product.id (products d)) in
          let r := {| Product.id := i; Product.product_name := name;
                      Product.category := cat; Product.price := x;
                      Product.quantity := q; Product.created_at := now |} in
          (inr tt, write (set_products (products d ++ [r]) i d) c')
      end
  end.

(** The row [p] after [SET product_name = ?, category = ?, price = ?,
    quantity = ?]. *)
Definition set_fields (name cat : str) (x : float) (q : Z) (p : Product.row)
  : Product.row :=
  {| Product.id := Product.id p; Product.product_name := name;
     Product.category := cat; Product.price := x; Product.quantity := q;
     Product.created_at := Product.created_at p |}.

(** [UPDATE products SET product_name = ?, category = ?, price = ?,
    quantity = ? WHERE id = ?] *)
Definition update_product (name cat : str) (price : float) (quantity i : Z)
  (c : connection) : (exn + unit) * connection :=
  let d := txn c in
  let c' := submit (UpdateProduct name cat price quantity i) c in
  match bind_int quantity with
  | inl e => (inl e, c')
  | inr q =>
      match bind_int i with
      | inl e => (inl e, c')
      | inr i' =>
          match bind_real price with
          | None =>
              if existsb (has_id i') (products d) then
                (inl (IntegrityError
                        "NOT NULL constraint failed: products.price"), c')
              else (inr tt, c')
          | Some x =>
              let rows :=
                map (fun p => if has_id i' p then set_fields name cat x q p
                              else p) (products d) in
              (inr tt, write (set_products rows (products_seq d) d) c')
          end
      end
  end.

(** [SELECT * FROM products WHERE id = ?], then [fetchone()]. *)
Definition select_product_by_id (i : Z) (c : connection)
  : (exn + option Product.row) * connection :=
  let c' := submit (SelectProductById i) c in
  match bind_int i with
  | inl e => (inl e, c')
  | inr i' => (inr (find (has_id i') (products (txn c))), c')
  end.

(** [SELECT product_name FROM products WHERE id = ?], then [fetchone()]. *)
Definition select_product_name_by_id (i : Z) (c : connection)
  : (exn + option str) * connection :=
  let c' := submit (SelectProductNameById i) c in
  match bind_int i with
  | inl e => (inl e, c')
  | inr i' =>
      (inr (option_map Product.product_name
              (find (has_id i') (products (txn c)))), c')
  end.

(** [DELETE FROM products WHERE id = ?] *)
Definition delete_product_by_id (i : Z) (c : connection)
  : (exn + unit) * connection :=
  let d := txn c in
  let c' := submit (DeleteProductById i) c in
  match bind_int i with
  | inl e => (inl e, c')
  | inr i' =>
      let rows := filter (fun p => negb (has_id i' p)) (products d) in
      (inr tt, write (set_products rows (products_seq d) d) c')
  end.

End Sqlite.

(** ** The web layer: requests, sessions, responses *)

Import Py.
Import Sqlite.

Inductive http_method := GET | POST.

(** [request.form]: the submitted fields in order; [form_get] is
    [request.form.get(key, default)], which answers with the first value
    of the key. *)
Definition form_data := list (str * str).

Fixpoint form_get (form : form_data) (key default : str) : str :=
  match form with
  | [] => default
  | (k, v) :: form' =>
      if String.eqb k key then v else form_get form' key default
  end.

Module Session.

(** The signed cookie: the keys that the views read and write. *)
Record t := {
  permanent : bool;
  user_id : option Z;
  username : option str
}.

Definition empty : t :=
  {| permanent := false; user_id := None; username := None |}.

(** ['user_id' in session] *)
Definition has_user_id (s : t) : bool :=
  match user_id s with
  | Some _ => true
  | None => false
  end.

End Session.

(** The two targets of [url_for]. *)
Inductive endpoint := ep_login | ep_dashboard.

(** A listed product: the row as a dictionary, with the key
    [is_low_stock] added by the dashboard. *)
Record product_view := {
  row : Product.row;
  is_low_stock : bool
}.

Record stats := {
  total_products : Z;
  total_stock : Z;
  low_stock_count : Z
}.

(** What a view returns: a redirect, a template with its arguments, or a
    plain text.  [stats = None] stands for the empty dictionary. *)
Inductive page :=
| redirect (target : endpoint)
| login_html
| dashboard_html (products : list product_view) (st : option stats)
    (threshold : option Z)
| add_product_html
| edit_product_html (product : Product.row)
| text (body : str)
| method_not_allowed.

(** A flashed message with its category. *)
Definition flash := (str * str)%type.

Definition danger (msg : str) : flash := (msg, "danger").

(** Everything a call of a view leaves behind. *)
Record outcome := {
  returned : page;
  flashed : list flash;
  session_after : Session.t;
  db_after : database;
  executed : list statement
}.

Definition finish (p : page) (f : list flash) (s : Session.t) (d : database)
  (q : list statement) : outcome :=
  {| returned := p; flashed := f; session_after := s; db_after := d;
     executed := q |}.

(** What the surroundings contribute to one call: whether the database
    file can be opened, the reading of the database clock, and the salt
    that the password hasher draws. *)
Record environment := {
  db_available : bool;
  now : Z;
  salt : str
}.

Definition LOW_STOCK_THRESHOLD : Z := 10.

(** [get_db_connection()]: [None] when [sqlite3.connect] raises. *)
Definition get_db_connection (env : environment) (d : database)
  : option connection :=
  if db_available env then Some (connect d) else None.

Definition view := Session.t -> database -> outcome.

(** The decorator [login_required]. *)
Definition login_required (f : view) : view :=
  fun session d =>
    if Session.has_user_id session then f session d
    else finish (redirect ep_login)
           [("Please login to access this page.", "warning")] session d [].

(** [index] *)
Definition index : view :=
  fun session d =>
    if Session.has_user_id session
    then finish (redirect ep_dashboard) [] session d []
    else finish (redirect ep_login) [] session d [].

(** [logout] *)
Definition logout : view :=
  fun session d =>
    finish (redirect ep_login)
      [("You have been logged out successfully.", "info")] Session.empty d [].

(** The handler of 404 errors. *)
Definition page_not_found : view :=
  fun session d =>
    finish (redirect ep_dashboard) [("Page not found.", "warning")] session d
      [].

(** The message of the generic [except Exception as e] branches. *)
Definition error_occurred (e : exn) : flash :=
  danger (fstr ["An error occurred: "; exn_str e]).

(** ** The views *)

Module App.

Section Views.

(** Three things come from outside [app.py]: the two functions of
    [werkzeug.security] (the first argument of [generate_password_hash]
    is the salt it draws) and the interpreter's limit on the digits of an
    integer literal. *)
Variable generate_password_hash : str -> str -> str.
Variable check_password_hash : str -> str -> bool.
Variable int_max_str_digits : nat.

(** [init_db]: the tables exist from [Sqlite.empty] on; what remains is
    the insertion of the default administrator. *)
Definition init_db (env : environment) (d : database) : database :=
  let conn := connect d in
  let hashed_password := generate_password_hash (salt env) "admin123" in
  let conn := insert_or_ignore_user "admin" hashed_password conn in
  let conn := commit conn in
  close conn.

(** [login] *)
Definition login (env : environment) (method : http_method)
  (form : form_data) : view :=
  fun session d =>
    if Session.has_user_id session
    then finish (redirect ep_dashboard) [] session d []
    else
      match method with
      | POST =>
          let username := strip (form_get form "username" "") in
          let password := form_get form "password" "" in
          if negb (truthy username) || negb (truthy password) then
            finish login_html
              [danger "Please enter both username and password."] session d []
          else
            match get_db_connection env d with
            | None =>
                finish login_html
                  [danger "Database connection error. Please try again later."]
                  session d []
            | Some conn =>
                let '(user, conn) := select_user_by_username username conn in
                let invalid :=
                  finish login_html [danger "Invalid username or password."]
                    session (close conn) (log conn) in
                match user with
                | Some u =>
                    if check_password_hash (User.password u) password then
                      finish (redirect ep_dashboard)
                        [(fstr ["Welcome back, "; username; "!"], "success")]
                        {| Session.permanent := true;
                           Session.user_id := Some (User.id u);
                           Session.username := Some (User.username u) |}
                        (close conn) (log conn)
                    else invalid
                | None => invalid
                end
            end
      | GET => finish login_html [] session d []
      end.

(** The dictionary of a listed row after the marking loop. *)
Definition mark_low_stock (p : Product.row) : product_view :=
  {| row := p; is_low_stock := Product.quantity p <? LOW_STOCK_THRESHOLD |}.

(** [dashboard] *)
Definition dashboard (env : environment) : view :=
  fun session d =>
    match get_db_connection env d with
    | None =>
        finish (dashboard_html [] None None)
          [danger "Database connection error."] session d []
    | Some conn =>
        let failed (e : exn) (conn : connection) :=
          finish (dashboard_html [] None None) [error_occurred e]
            session (close conn) (log conn) in
        let '(products, conn) := select_products_newest_first conn in
        match select_count_and_stock conn with
        | (inl e, conn) => failed e conn
        | (inr (n, s), conn) =>
            match select_low_stock_count LOW_STOCK_THRESHOLD conn with
            | (inl e, conn) => failed e conn
            | (inr low, conn) =>
                finish
                  (dashboard_html (map mark_low_stock products)
                     (Some {| total_products := n; total_stock := s;
                              low_stock_count := low |})
                     (Some LOW_STOCK_THRESHOLD))
                  [] session (close conn) (log conn)
            end
        end
    end.

(** The local variables of [add_product] and [edit_product] after their
    validation block (the same lines in both).  [price] and [quantity]
    hold the converted values, or [None] when the conversion raised. *)
Record submission := {
  product_name : str;
  category : str;
  price : option float;
  quantity : option Z;
  errors : list str
}.

Definition validate (form : form_data) : submission :=
  let product_name := strip (form_get form "product_name" "") in
  let category := strip (form_get form "category" "") in
  let price := form_get form "price" "" in
  let quantity := form_get form "quantity" "" in
  let errors := [] in
  let errors :=
    if negb (truthy product_name)
    then errors ++ ["Product name is required."] else errors in
  let errors :=
    if negb (truthy category)
    then errors ++ ["Category is required."] else errors in
  let '(price, errors) :=
    match float_of_str price with
    | Some x =>
        (Some x,
         if float_lt x zero
         then errors ++ ["Price cannot be negative."] else errors)
    | None => (None, errors ++ ["Please enter a valid price."])
    end in
  let '(quantity, errors) :=
    match int int_max_str_digits quantity with
    | Some n =>
        (Some n,
         if n <? 0 then errors ++ ["Quantity cannot be negative."] else errors)
    | None => (None, errors ++ ["Please enter a valid quantity."])
    end in
  {| product_name := product_name; category := category; price := price;
     quantity := quantity; errors := errors |}.

(** [add_product] *)
Definition add_product (env : environment) (method : http_method)
  (form : form_data) : view :=
  fun session d =>
    match method with
    | POST =>
        let v := validate form in
        match errors v, price v, quantity v with
        | [], Some price, Some quantity =>
            match get_db_connection env d with
            | None =>
                finish add_product_html [danger "Database connection error."]
                  session d []
            | Some conn =>
                match insert_product (product_name v) (category v) price
                        quantity (now env) conn with
                | (inr _, conn) =>
                    let conn := commit conn in
                    finish (redirect ep_dashboard)
                      [(fstr ["Product "; dquote; product_name v; dquote;
                              " added successfully!"], "success")]
                      session (close conn) (log conn)
                | (inl e, conn) =>
                    finish add_product_html [error_occurred e]
                      session (close conn) (log conn)
                end
            end
        | errs, _, _ => finish add_product_html (map danger errs) session d []
        end
    | GET => finish add_product_html [] session d []
    end.

(** [edit_product] *)
Definition edit_product (env : environment) (id : Z) (method : http_method)
  (form : form_data) : view :=
  fun session d =>
    match get_db_connection env d with
    | None =>
        finish (redirect ep_dashboard) [danger "Database connection error."]
          session d []
    | Some conn =>
        let failed (before : list flash) (e : exn) (conn : connection) :=
          finish (redirect ep_dashboard) (before ++ [error_occurred e])
            session (close conn) (log conn) in
        match method with
        | POST =>
            let v := validate form in
            match errors v, price v, quantity v with
            | [], Some price, Some quantity =>
                match update_product (product_name v) (category v) price
                        quantity id conn with
                | (inr _, conn) =>
                    let conn := commit conn in
                    finish (redirect ep_dashboard)
                      [(fstr ["Product "; dquote; product_name v; dquote;
                              " updated successfully!"], "success")]
                      session (close conn) (log conn)
                | (inl e, conn) => failed [] e conn
                end
            | errs, _, _ =>
                match select_product_by_id id conn with
                | (inr (Some r), conn) =>
                    finish (edit_product_html r) (map danger errs)
                      session (close conn) (log conn)
                | (inr None, conn) =>
                    failed (map danger errs)
                      (TypeError "'NoneType' object is not iterable") conn
                | (inl e, conn) => failed (map danger errs) e conn
                end
            end
        | GET =>
            match select_product_by_id id conn with
            | (inr (Some r), conn) =>
                finish (edit_product_html r) [] session (close conn) (log conn)
            | (inr None, conn) =>
                finish (redirect ep_dashboard) [danger "Product not found."]
                  session (close conn) (log conn)
            | (inl e, conn) => failed [] e conn
            end
        end
    end.

(** [delete_product] *)
Definition delete_product (env : environment) (id : Z) : view :=
  fun session d =>
    match get_db_connection env d with
    | None =>
        finish (redirect ep_dashboard) [danger "Database connection error."]
          session d []
    | Some conn =>
        let failed (e : exn) (conn : connection) :=
          finish (redirect ep_dashboard) [error_occurred e]
            session (close conn) (log conn) in
        match select_product_name_by_id id conn with
        | (inr (Some name), conn) =>
            match delete_product_by_id id conn with
            | (inr _, conn) =>
                let conn := commit conn in
                finish (redirect ep_dashboard)
                  [(fstr ["Product "; dquote; name; dquote;
                          " deleted successfully!"], "success")]
                  session (close conn) (log conn)
            | (inl e, conn) => failed e conn
            end
        | (inr None, conn) =>
            finish (redirect ep_dashboard) [danger "Product not found."]
              session (close conn) (log conn)
        | (inl e, conn) => failed e conn
        end
    end.

(** [create_admin] *)
Definition create_admin (env : environment) : view :=
  fun session d =>
    match get_db_connection env d with
    | None => finish (text "Database connection error.") [] session d []
    | Some conn =>
        let '(existing, conn) := select_admin conn in
        match existing with
        | Some _ =>
            finish
              (text (fstr ["Admin user already exists. ";
                           "Login with username: admin, password: admin123"]))
              [] session (close conn) (log conn)
        | None =>
            let hashed_password :=
              generate_password_hash (salt env) "admin123" in
            match insert_user "admin" hashed_password conn with
            | (inr _, conn) =>
                let conn := commit conn in
                finish
                  (text (fstr ["Admin user created successfully! ";
                               "Username: admin, Password: admin123"]))
                  [] session (close conn) (log conn)
            | (inl e, conn) =>
                finish (text (fstr ["Error: "; exn_str e])) [] session
                  (close conn) (log conn)
            end
        end
    end.

(** *** Routing *)

Inductive url :=
| url_index
| url_login
| url_logout
| url_dashboard
| url_add_product
| url_edit_product (id : Z)
| url_delete_product (id : Z)
| url_create_admin
| url_other.

Record request := {
  target : url;
  method : http_method;
  form : form_data
}.

(** The application: the URL map with the methods each rule accepts. *)
Definition app (env : environment) (req : request) : view :=
  match target req, method req with
  | url_index, GET => index
  | url_login, m => login env m (form req)
  | url_logout, GET => logout
  | url_dashboard, GET => login_required (dashboard env)
  | url_add_product, m => login_required (add_product env m (form req))
  | url_edit_product id, m =>
      login_required (edit_product env id m (form req))
  | url_delete_product id, GET => login_required (delete_product env id)
  | url_create_admin, GET => create_admin env
  | url_other, _ => page_not_found
  | _, POST => fun session d => finish method_not_allowed [] session d []
  end.

(** The database files that can arise: the module runs [init_db] when it
    is loaded, on a fresh file or on the file a previous run left, and
    every request goes through [app]. *)
Inductive reachable : database -> Prop :=
| reachable_empty : reachable Sqlite.empty
| reachable_init env d : reachable d -> reachable (init_db env d)
| reachable_request env req session d :
    reachable d -> reachable (db_after (app env req session d)).

End Views.

End App.

Import App.

(** ** A stand-in platform for the worked examples

    A hasher that keeps the salt and the password side by side is enough
    to run the views on concrete requests; nothing below assumes anything
    about the hasher beyond what a statement spells out. *)

Module Example.

Definition generate_password_hash (salt pw : str) : str :=
  fstr ["plain$"; salt; "$"; pw].

Definition check_password_hash (pwhash pw : str) : bool :=
  let n := (String.length pwhash - String.length pw)%nat in
  String.eqb (substring n (String.length pw) pwhash) pw
  && String.eqb (substring (n - 1) 1 pwhash) "$".

Definition int_max_str_digits : nat := 4300.

Definition env (t : Z) : environment :=
  {| db_available := true; now := t; salt := "c2FsdA" |}.

Definition product_form (name cat price quantity : str) : form_data :=
  [("product_name", name); ("category", cat); ("price", price);
   ("quantity", quantity)].

Definition login_form (username password : str) : form_data :=
  [("username", username); ("password", password)].

Definition staff : Session.t :=
  {| Session.permanent := true; Session.user_id := Some 1;
     Session.username := Some "admin" |}.

(** The file after the first start of the application. *)
Definition fresh : database :=
  init_db generate_password_hash (env 0) Sqlite.empty.

Definition add (t : Z) (name cat price quantity : str) (d : database)
  : outcome :=
  add_product int_max_str_digits (env t) POST
    (product_form name cat price quantity) staff d.

Definition edit (id : Z) (name cat price quantity : str) (d : database)
  : outcome :=
  edit_product int_max_str_digits (env 0) id POST
    (product_form name cat price quantity) staff d.

(** The request behind [add]. *)
Definition add_request (name cat price quantity : str) : request :=
  {| target := url_add_product; method := POST;
     form := product_form name cat price quantity |}.

(** The surroundings of a call made while the database file cannot be
    opened. *)
Definition offline : environment :=
  {| db_available := false; now := 0; salt := "" |}.

(** A store with two products, one of them low in stock. *)
Definition stocked : database :=
  db_after
    (add 2 "Gauze" "Pharmacy" "1.20" "50"
       (db_after (add 1 " Aspirin " "Pharmacy" "4.50" "5" fresh))).

(** A store with two products of the largest quantity a row can hold. *)
Definition overstocked : database :=
  db_after
    (add 2 "Gauze" "Pharmacy" "1.20" "9223372036854775807"
       (db_after
          (add 1 "Aspirin" "Pharmacy" "4.50" "9223372036854775807" fresh))).

End Example.

(** ** Vocabulary of the specification

    The operations and error kinds of the specification, phrased over the
    views: [insert] is a POST to [add_product], [update] a POST to
    [edit_product], [get] a GET to [edit_product], [delete] is
    [delete_product], [verify] a POST to [login], [stats] and [list_all]
    are what [dashboard] hands to its template. *)


(** The four validation rules: a name that is not empty once trimmed, a
    category likewise, a price that parses and is non-negative (at least
    zero, which a NaN is not), a quantity that parses as an integer and
    is non-negative.  Each violation has the message that reports it. *)
Inductive violation :=
| EmptyName
| EmptyCategory
| InvalidPrice
| NegativePrice
| InvalidQuantity
| NegativeQuantity.

Definition message (v : violation) : str :=
  match v with
  | EmptyName => "Product name is required."
  | EmptyCategory => "Category is required."
  | InvalidPrice => "Please enter a valid price."
  | NegativePrice => "Price cannot be negative."
  | InvalidQuantity => "Please enter a valid quantity."
  | NegativeQuantity => "Quantity cannot be negative."
  end.

Definition name_rule (name : str) : list violation :=
  if String.eqb (strip name) "" then [EmptyName] else [].

Definition category_rule (cat : str) : list violation :=
  if String.eqb (strip cat) "" then [EmptyCategory] else [].

Definition price_rule (price : str) : list violation :=
  match float_of_str price with
  | None => [InvalidPrice]
  | Some x => if float_le zero x then [] else [NegativePrice]
  end.

Definition quantity_rule (max_str_digits : nat) (quantity : str)
  : list violation :=
  match int max_str_digits quantity with
  | None => [InvalidQuantity]
  | Some n => if 0 <=? n then [] else [NegativeQuantity]
  end.

(** Every rule is evaluated on its own field; the violations of one
    submission are those of the four rules together. *)
Definition violations (max_str_digits : nat) (form : form_data)
  : list violation :=
  name_rule (form_get form "product_name" "")
  ++ category_rule (form_get form "category" "")
  ++ price_rule (form_get form "price" "")
  ++ quantity_rule max_str_digits (form_get form "quantity" "").

(** A call reports every violated rule: the message of each violation of
    the submission is among the messages it flashes. *)
Definition reports_every_violation (max_str_digits : nat) (form : form_data)
  (o : outcome) : Prop :=
  forall v : violation,
    In v (violations max_str_digits form) ->
    In (danger (message v)) (flashed o).

(** The submitted price does not convert to a NaN. *)
Definition price_is_a_number (form : form_data) : Prop :=
  float_of_str (form_get form "price" "") <> Some S754_nan.

(** The statistics, as the specification words them: the number of rows,
    the sum of the quantities, the number of rows with a quantity below
    the threshold of 10. *)
Definition total (l : list Z) : Z := fold_right Z.add 0 l.

Definition stats_of (rows : list Product.row) : stats :=
  {| total_products := Z.of_nat (List.length rows);
     total_stock := total (map Product.quantity rows);
     low_stock_count :=
       Z.of_nat (List.length
                   (filter (fun p => Product.quantity p <? 10) rows)) |}.

(** The statistics a page shows, if any. *)
Definition page_stats (p : page) : option stats :=
  match p with
  | dashboard_html _ st _ => st
  | _ => None
  end.

(** The products a page lists. *)
Definition page_products (p : page) : list product_view :=
  match p with
  | dashboard_html products _ _ => products
  | _ => []
  end.

(** [get(id)]: the GET branch of [edit_product]. *)
Definition get (env : environment) (id : Z) : view :=
  edit_product 0 env id GET [].

(** The answer of a view to a missing product. *)
Definition not_found (o : outcome) : Prop :=
  returned o = redirect ep_dashboard
  /\ flashed o = [danger "Product not found."].

(** What a client observes of a call. *)
Definition observable (o : outcome) : page * list flash * Session.t :=
  (returned o, flashed o, session_after o).

(** The calls of [check_password_hash] that [login] makes, each with
    its two arguments.  The test of the view is
    [user and check_password_hash(user['password'], password)]: the
    hasher runs when the lookup found a row, and only then. *)
Definition login_hash_calls (env : environment) (m : http_method)
  (form : form_data) (session : Session.t) (d : database)
  : list (str * str) :=
  if Session.has_user_id session then []
  else
    match m with
    | POST =>
        let username := strip (form_get form "username" "") in
        let password := form_get form "password" "" in
        if negb (truthy username) || negb (truthy password) then []
        else
          match get_db_connection env d with
          | None => []
          | Some conn =>
              let '(user, conn) := select_user_by_username username conn in
              match user with
              | Some u => [(User.password u, password)]
              | None => []
              end
          end
    | GET => []
    end.

(** The number of rows of [users] that carry a username. *)
Definition count_username (name : str) (rows : list User.row) : nat :=
  List.length (filter (has_username name) rows).

(** Newest first. *)
Definition newer_or_equal (a b : Product.row) : Prop :=
  Product.created_at b <= Product.created_at a.

(** *** The operations as the specification states them

    Each of the three predicates below says of one call what the
    specification promises of it, word for word; they are compared with
    the views further down. *)

(** [stats()]: the page shows the statistics of the stored rows, and
    every listed product carries the flag [quantity < 10]. *)
Definition stats_as_specified (env : environment) (session : Session.t)
  (d : database) : Prop :=
  let p := returned (dashboard env session d) in
  page_stats p = Some (stats_of (products d))
  /\ Forall (fun v => is_low_stock v = (Product.quantity (row v) <? 10))
       (page_products p).

(** [list_all()]: the page lists every stored product, newest first. *)
Definition list_all_as_specified (env : environment) (session : Session.t)
  (d : database) : Prop :=
  let listed :=
    map row (page_products (returned (dashboard env session d))) in
  Permutation (products d) listed
  /\ StronglySorted newer_or_equal listed.

(** [insert] followed by [get]: a submission that passes validation,
    with a price and a quantity that are at least zero, is stored, and
    [get] on the new id shows its exact field values and a creation time
    that is not before the call. *)
Definition insert_get_as_specified (max_str_digits : nat)
  (env : environment) (form : form_data) (session : Session.t)
  (d : database) : Prop :=
  forall (x : float) (n : Z),
    errors (validate max_str_digits form) = [] ->
    float_of_str (form_get form "price" "") = Some x ->
    float_le zero x = true ->
    int max_str_digits (form_get form "quantity" "") = Some n ->
    0 <= n ->
    let o := add_product max_str_digits env POST form session d in
    let id := next_rowid (products_seq d) (map Product.id (products d)) in
    returned o = redirect ep_dashboard
    /\ exists r : Product.row,
         returned (get env id session (db_after o)) = edit_product_html r
         /\ Product.product_name r = form_get form "product_name" ""
         /\ Product.category r = form_get form "category" ""
         /\ float_eq (Product.price r) x = true
         /\ Product.quantity r = n
         /\ now env <= Product.created_at r.

(** [delete(id)]: an existing row is removed, it alone, and its name is
    reported; a missing one is reported as not found and nothing
    changes; either way [get(id)] finds nothing afterwards. *)
Definition delete_as_specified (env : environment) (id : Z)
  (session : Session.t) (d : database) : Prop :=
  let o := delete_product env id session d in
  match find (has_id id) (products d) with
  | Some p =>
      returned o = redirect ep_dashboard
      /\ flashed o
         = [(fstr ["Product "; dquote; Product.product_name p; dquote;
                   " deleted successfully!"], "success")]
      /\ (exists before after : list Product.row,
            products d = before ++ p :: after
            /\ products (db_after o) = before ++ after)
      /\ users (db_after o) = users d
  | None => not_found o /\ db_after o = d
  end
  /\ not_found (get env id session (db_after o)).



(** The row that an accepted insertion appends. *)
Definition new_row (d : database) (name cat : str) (x : float) (n now : Z)
  : Product.row :=
  {| Product.id := next_rowid (products_seq d) (map Product.id (products d));
     Product.product_name := name; Product.category := cat;
     Product.price := x; Product.quantity := n; Product.created_at := now |}.

(** *** Keys

    What the schema and [AUTOINCREMENT] keep true of the two tables: the
    product ids grow along the table (so no two rows share one) and lie
    between 1 and the table's sequence; so do the user ids; and the only
    username there is, at most once, is "admin". *)
Definition keyed (d : database) : Prop :=
  StronglySorted Z.lt (map Product.id (products d))
  /\ Forall (fun p => 0 < Product.id p <= products_seq d) (products d)
  /\ Forall (fun u => 0 < User.id u <= users_seq d) (users d)
  /\ Forall (fun u => User.username u = "admin") (users d)
  /\ (List.length (users d) <= 1)%nat.

(** The table after an accepted update of the rows with id [i]. *)
Definition updated (i : Z) (name cat : str) (x : float) (n : Z)
  (rows : list Product.row) : list Product.row :=
  map (fun p => if has_id i p then set_fields name cat x n p else p) rows.

(** The rows of [d'] come from [d]: the sequence of [products] has not
    gone back, and every row of [d'] either continues a row of [d] (same
    id, same creation time) or carries an id that [d] had not handed out
    yet, the one the sequence of [d'] now stands at. *)
Definition continues (d d' : database) : Prop :=
  products_seq d <= products_seq d'
  /\ forall r : Product.row,
       In r (products d') ->
       (exists r0 : Product.row,
          In r0 (products d) /\ Product.id r0 = Product.id r
          /\ Product.created_at r0 = Product.created_at r)
       \/ (products_seq d < Product.id r
           /\ Product.id r = products_seq d').

(** A row as the views write it: name and category trimmed and not
    empty, a price that is a number and not the negative zero (stored, it
    reads back as itself), a quantity in the 64-bit range. *)
Definition clean (p : Product.row) : Prop :=
  strip (Product.product_name p) = Product.product_name p
  /\ Product.product_name p <> ""
  /\ strip (Product.category p) = Product.category p
  /\ Product.category p <> ""
  /\ bind_real (Product.price p) = Some (Product.price p)
  /\ fits_int64 (Product.quantity p) = true.

(** The number of listed products that carry the low-stock flag. *)
Definition flagged (l : list product_view) : Z :=
  Z.of_nat (List.length (filter is_low_stock l)).

(** The request to log out, and a request for a gated view. *)
Definition logout_request : request :=
  {| target := url_logout; method := GET; form := [] |}.

Definition gated (u : url) : bool :=
  match u with
  | url_dashboard | url_add_product | url_edit_product _
  | url_delete_product _ => true
  | _ => false
  end.

(** * Properties *)

(** ** The builtins *)

Lemma lstrip_chars_idempotent (l : list ascii) :
  lstrip_chars (lstrip_chars l) = lstrip_chars l.
Proof.
  induction l as [|c l IH]; simpl; [reflexivity|].
  destruct (isspace c) eqn:Hc; [exact IH|].
  simpl. now rewrite Hc.
Qed.

Lemma lstrip_chars_head (l : list ascii) :
  lstrip_chars l = []
  \/ exists c t, lstrip_chars l = c :: t /\ isspace c = false.
Proof.
  induction l as [|c l IH]; simpl; [now left|].
  destruct (isspace c) eqn:Hc; [exact IH|].
  right. now exists c, l.
Qed.

Lemma lstrip_chars_snoc (l : list ascii) (c : ascii) :
  isspace c = false -> lstrip_chars (l ++ [c]) = lstrip_chars l ++ [c].
Proof.
  intros Hc. induction l as [|a l IH]; simpl.
  - now rewrite Hc.
  - now destruct (isspace a).
Qed.

Lemma rstrip_chars_cons (c : ascii) (l : list ascii) :
  isspace c = false -> rstrip_chars (c :: l) = c :: rstrip_chars l.
Proof.
  intros Hc. unfold rstrip_chars. simpl.
  rewrite (lstrip_chars_snoc _ _ Hc), rev_app_distr. reflexivity.
Qed.

Lemma rstrip_chars_idempotent (l : list ascii) :
  rstrip_chars (rstrip_chars l) = rstrip_chars l.
Proof.
  unfold rstrip_chars.
  now rewrite rev_involutive, lstrip_chars_idempotent.
Qed.

Lemma lstrip_rstrip_lstrip (l : list ascii) :
  lstrip_chars (rstrip_chars (lstrip_chars l)) = rstrip_chars (lstrip_chars l).
Proof.
  destruct (lstrip_chars_head l) as [E | (c & t & E & Hc)]; rewrite E.
  - reflexivity.
  - rewrite (rstrip_chars_cons _ _ Hc). simpl. now rewrite Hc.
Qed.

(** Trimming twice is trimming once. *)
Lemma strip_idempotent (s : str) : strip (strip s) = strip s.
Proof.
  unfold strip.
  rewrite list_ascii_of_string_of_list_ascii.
  now rewrite lstrip_rstrip_lstrip, rstrip_chars_idempotent.
Qed.

Lemma truthy_eqb (s : str) : negb (truthy s) = String.eqb s "".
Proof. now destruct s. Qed.


Lemma bind_real_eq (x x' : float) :
  bind_real x = Some x' -> float_eq x' x = true.
Proof.
  destruct x as [s | s | | s m e]; simpl; intros H;
    inversion H; subst; clear H.
  - now destruct s.
  - now destruct s.
  - unfold float_eq, SFeqb. simpl.
    destruct s; rewrite Z.compare_refl, Pos.compare_cont_refl; reflexivity.
Qed.

Lemma bind_int_fits (n : Z) :
  fits_int64 n = true -> bind_int n = inr n.
Proof. unfold bind_int. now intros ->. Qed.

Section Properties.

Set Default Proof Using "Type".

Variable generate_password_hash : str -> str -> str.
Variable check_password_hash : str -> str -> bool.
Variable int_max_str_digits : nat.

Local Abbreviation validate := (validate int_max_str_digits).
Local Abbreviation add_product := (add_product int_max_str_digits).
Local Abbreviation edit_product := (edit_product int_max_str_digits).
Local Abbreviation init_db := (init_db generate_password_hash).
Local Abbreviation create_admin := (create_admin generate_password_hash).
Local Abbreviation login := (login check_password_hash).
Local Abbreviation app :=
  (app generate_password_hash check_password_hash int_max_str_digits).
Local Abbreviation reachable :=
  (reachable generate_password_hash check_password_hash int_max_str_digits).

(** ** Validation *)

Lemma validate_fields (form : form_data) :
  product_name (validate form) = strip (form_get form "product_name" "")
  /\ category (validate form) = strip (form_get form "category" "")
  /\ price (validate form) = float_of_str (form_get form "price" "")
  /\ quantity (validate form)
     = int int_max_str_digits (form_get form "quantity" "").
Proof.
  unfold App.validate.
  destruct (float_of_str _), (int _ _); repeat split; reflexivity.
Qed.

(** For a number, being below zero is the same as not being at least
    zero; a NaN is neither. *)
Lemma float_lt_zero_le (x : float) :
  x <> S754_nan -> float_lt x zero = negb (float_le zero x).
Proof.
  destruct x as [s | s | | s m e]; simpl; intros H;
    try (now destruct s); congruence.
Qed.

(** Unless the price converts to a NaN, the messages collected by the
    validation block are those of the violated rules, rule by rule. *)
Lemma validate_errors (form : form_data) :
  price_is_a_number form ->
  errors (validate form) = map message (violations int_max_str_digits form).
Proof.
  unfold price_is_a_number, App.validate, violations, name_rule,
    category_rule, price_rule, quantity_rule.
  rewrite !truthy_eqb. intros N.
  destruct (float_of_str (form_get form "price" "")) as [x|].
  - assert (Nx : x <> S754_nan) by (intros E; apply N; now rewrite E).
    rewrite (float_lt_zero_le x Nx).
    destruct (String.eqb (strip (form_get form "product_name" "")) "");
      destruct (String.eqb (strip (form_get form "category" "")) "");
      destruct (float_le zero x);
      destruct (int int_max_str_digits (form_get form "quantity" ""))
        as [n|];
      try (rewrite (Z.leb_antisym n 0); destruct (n <? 0)); reflexivity.
  - destruct (String.eqb (strip (form_get form "product_name" "")) "");
      destruct (String.eqb (strip (form_get form "category" "")) "");
      destruct (int int_max_str_digits (form_get form "quantity" ""))
        as [n|];
      try (rewrite (Z.leb_antisym n 0); destruct (n <? 0)); reflexivity.
Qed.

(** A submission without errors has a non-empty name and category, a
    price that is not below zero and a quantity that is at least zero. *)
Lemma validate_accepts (form : form_data) :
  errors (validate form) = [] ->
  exists x n,
    price (validate form) = Some x /\ quantity (validate form) = Some n
    /\ float_lt x zero = false /\ 0 <= n
    /\ truthy (product_name (validate form)) = true
    /\ truthy (category (validate form)) = true.
Proof.
  unfold App.validate.
  destruct (truthy (strip (form_get form "product_name" ""))) eqn:N;
    destruct (truthy (strip (form_get form "category" ""))) eqn:C;
    destruct (float_of_str (form_get form "price" "")) as [x|];
    try destruct (float_lt x zero) eqn:L;
    destruct (int int_max_str_digits (form_get form "quantity" "")) as [n|];
    try destruct (n <? 0) eqn:Q; simpl; try discriminate.
  intros _. exists x, n. repeat split; try assumption.
  apply Z.ltb_ge. exact Q.
Qed.

Lemma validate_rejects (form : form_data) :
  price_is_a_number form ->
  violations int_max_str_digits form <> [] -> errors (validate form) <> [].
Proof.
  intros N. rewrite (validate_errors form N).
  destruct (violations int_max_str_digits form); simpl; congruence.
Qed.


(** What [add_product] does with a submission that breaks a rule: it
    flashes the collected messages and shows the form again, before any
    connection is opened. *)
Lemma add_product_rejected (env : environment) (form : form_data)
  (session : Session.t) (d : database) :
  errors (validate form) <> [] ->
  add_product env POST form session d
  = finish add_product_html (map danger (errors (validate form))) session d [].
Proof.
  intros H. unfold App.add_product.
  destruct (errors (validate form)) as [|e errs]; [congruence|].
  reflexivity.
Qed.

(** What [edit_product] does with such a submission: it flashes the
    collected messages, then reads the row back for the form; a failing
    read adds its own message. *)
Lemma edit_product_rejected (env : environment) (id : Z) (form : form_data)
  (session : Session.t) (d : database) :
  db_available env = true ->
  errors (validate form) <> [] ->
  exists p rest,
    edit_product env id POST form session d
    = finish p (map danger (errors (validate form)) ++ rest) session d
        [SelectProductById id].
Proof.
  intros A H. unfold App.edit_product, get_db_connection. rewrite A.
  destruct (errors (validate form)) as [|e errs]; [congruence|].
  unfold select_product_by_id, bind_int.
  destruct (fits_int64 id); [destruct (find _ _)|]; simpl;
    eexists; eexists; try reflexivity.
  rewrite app_nil_r. reflexivity.
Qed.

(** C3 (amended). For a submission whose price does not convert to a
    NaN: the messages that validation collects are those of the
    violations of the four rules (name and category not empty once
    trimmed, price parsable and non-negative, quantity a parsable
    non-negative integer), all of them, in rule order.  A POST to
    [add_product] that violates a rule flashes exactly these messages
    and leaves the store alone.  A POST to [edit_product] that violates
    a rule, made while the database can be opened, flashes all of them
    before anything else and leaves the store alone; made while it
    cannot, it is answered with "Database connection error." alone,
    before validation runs.  The submission ("Bandage", "", "-1",
    "abc") violates three rules and is answered with exactly the three
    messages: empty category, negative price, non-integer quantity. *)
Theorem validation_reports_every_violation :
  forall (env : environment) (id : Z) (form : form_data)
         (session : Session.t) (d : database),
    price_is_a_number form ->
    let vs := violations int_max_str_digits form in
    errors (validate form) = map message vs
    /\ (vs <> [] ->
        add_product env POST form session d
        = finish add_product_html (map danger (map message vs)) session d [])
    /\ reports_every_violation int_max_str_digits form
         (add_product env POST form session d)
    /\ (vs <> [] -> db_available env = true ->
        exists rest,
          flashed (edit_product env id POST form session d)
          = map danger (map message vs) ++ rest
          /\ db_after (edit_product env id POST form session d) = d)
    /\ (db_available env = true ->
        reports_every_violation int_max_str_digits form
          (edit_product env id POST form session d))
    /\ (db_available env = false ->
        edit_product env id POST form session d
        = finish (redirect ep_dashboard)
            [danger "Database connection error."] session d [])
    /\ violations int_max_str_digits
         (Example.product_form "Bandage" "" "-1" "abc")
       = [EmptyCategory; NegativePrice; InvalidQuantity]
    /\ flashed (add_product env POST
                  (Example.product_form "Bandage" "" "-1" "abc") session d)
       = [danger "Category is required.";
          danger "Price cannot be negative.";
          danger "Please enter a valid quantity."].
Proof.
  intros env id form session d N vs. subst vs.
  assert (Add : violations int_max_str_digits form <> [] ->
                add_product env POST form session d
                = finish add_product_html
                    (map danger
                       (map message (violations int_max_str_digits form)))
                    session d []).
  { intros H. rewrite <- (validate_errors form N).
    apply add_product_rejected. now apply validate_rejects. }
  assert (Edit : violations int_max_str_digits form <> [] ->
                 db_available env = true ->
                 exists rest,
                   flashed (edit_product env id POST form session d)
                   = map danger
                       (map message (violations int_max_str_digits form))
                     ++ rest
                   /\ db_after (edit_product env id POST form session d) = d).
  { intros H A.
    destruct (edit_product_rejected env id form session d A
                (validate_rejects _ N H)) as (p & rest & E).
    exists rest. rewrite E, (validate_errors form N). now split. }
  split; [now apply validate_errors|].
  split; [exact Add|].
  split.
  { intros v Hv. rewrite Add.
    - simpl. apply in_map. now apply in_map.
    - intros E. now rewrite E in Hv. }
  split; [exact Edit|].
  split.
  { intros A v Hv. destruct Edit as (rest & E & _); [|exact A|].
    - intros E. now rewrite E in Hv.
    - rewrite E. apply in_or_app. left. apply in_map. now apply in_map. }
  split.
  { intros A. unfold App.edit_product, get_db_connection. now rewrite A. }
  split; reflexivity.
Qed.


(** ** The effect of each view on the store *)


Lemma bind_int_inr (n q : Z) :
  bind_int n = inr q -> q = n /\ fits_int64 n = true.
Proof.
  unfold bind_int. destruct (fits_int64 n); [|discriminate].
  intros H. inversion H. now split.
Qed.

(** [add_product] either leaves the file as it was or appends one row
    built from an accepted submission. *)
Lemma add_product_cases (env : environment) (m : http_method)
  (form : form_data) (session : Session.t) (d : database) :
  db_after (add_product env m form session d) = d
  \/ exists x n x',
       errors (validate form) = []
       /\ price (validate form) = Some x /\ quantity (validate form) = Some n
       /\ bind_real x = Some x' /\ fits_int64 n = true
       /\ db_after (add_product env m form session d)
          = set_products
              (products d
               ++ [new_row d (product_name (validate form))
                     (category (validate form)) x' n (now env)])
              (next_rowid (products_seq d) (map Product.id (products d))) d.
Proof.
  unfold App.add_product.
  destruct m; [now left|].
  destruct (errors (validate form)) as [|e errs]; [|now left].
  destruct (price (validate form)) as [x|]; [|now left].
  destruct (quantity (validate form)) as [n|]; [|now left].
  unfold get_db_connection. destruct (db_available env); [|now left].
  unfold insert_product.
  destruct (bind_int n) as [e|q] eqn:B; [now left|].
  apply bind_int_inr in B. destruct B as [-> F].
  destruct (bind_real x) as [x'|] eqn:R; [|now left].
  right. exists x, n, x'. repeat split; try assumption; reflexivity.
Qed.

(** [edit_product] either leaves the file as it was or rewrites the
    fields of the rows with the given id from an accepted submission. *)
Lemma edit_product_cases (env : environment) (id : Z) (m : http_method)
  (form : form_data) (session : Session.t) (d : database) :
  db_after (edit_product env id m form session d) = d
  \/ exists x n x',
       errors (validate form) = []
       /\ price (validate form) = Some x /\ quantity (validate form) = Some n
       /\ bind_real x = Some x' /\ fits_int64 n = true
       /\ fits_int64 id = true
       /\ db_after (edit_product env id m form session d)
          = set_products
              (map (fun p =>
                      if has_id id p
                      then set_fields (product_name (validate form))
                             (category (validate form)) x' n p
                      else p) (products d))
              (products_seq d) d.
Proof.
  unfold App.edit_product, get_db_connection.
  destruct (db_available env); [|now left].
  destruct m.
  { unfold select_product_by_id. destruct (bind_int id); [now left|].
    destruct (find _ _); now left. }
  destruct (errors (validate form)) as [|e errs].
  2:{ unfold select_product_by_id. destruct (bind_int id); [now left|].
      destruct (find _ _); now left. }
  destruct (price (validate form)) as [x|].
  2:{ unfold select_product_by_id. destruct (bind_int id); [now left|].
      destruct (find _ _); now left. }
  destruct (quantity (validate form)) as [n|].
  2:{ unfold select_product_by_id. destruct (bind_int id); [now left|].
      destruct (find _ _); now left. }
  unfold update_product.
  destruct (bind_int n) as [e|q] eqn:B; [now left|].
  apply bind_int_inr in B. destruct B as [-> F].
  destruct (bind_int id) as [e|i] eqn:Bi; [now left|].
  apply bind_int_inr in Bi. destruct Bi as [-> Fi].
  destruct (bind_real x) as [x'|] eqn:R.
  - right. exists x, n, x'. repeat split; try assumption; reflexivity.
  - destruct (existsb _ _); now left.
Qed.

(** [delete_product] either leaves the file as it was or removes the
    rows with the given id. *)
Lemma delete_product_cases (env : environment) (id : Z) (session : Session.t)
  (d : database) :
  db_after (delete_product env id session d) = d
  \/ db_after (delete_product env id session d)
     = set_products (filter (fun p => negb (has_id id p)) (products d))
         (products_seq d) d.
Proof.
  unfold delete_product, get_db_connection.
  destruct (db_available env); [|now left].
  unfold select_product_name_by_id, delete_product_by_id.
  destruct (bind_int id) as [e|i] eqn:B; [now left|].
  apply bind_int_inr in B. destruct B as [-> F].
  destruct (find _ _); simpl; [|now left].
  right. reflexivity.
Qed.

Lemma login_db_after (env : environment) (m : http_method)
  (form : form_data) (session : Session.t) (d : database) :
  db_after (login env m form session d) = d.
Proof.
  unfold App.login, get_db_connection.
  destruct (Session.has_user_id session); [reflexivity|].
  destruct m; [reflexivity|].
  destruct (_ || _); [reflexivity|].
  destruct (db_available env); [|reflexivity].
  simpl. destruct (find _ _) as [u|]; [|reflexivity].
  destruct (check_password_hash _ _); reflexivity.
Qed.

Lemma dashboard_db_after (env : environment) (session : Session.t)
  (d : database) :
  db_after (dashboard env session d) = d.
Proof.
  unfold dashboard, get_db_connection.
  destruct (db_available env); [|reflexivity].
  simpl. unfold select_count_and_stock. simpl.
  destruct (sum _) as [e|s]; reflexivity.
Qed.

Lemma init_db_products (env : environment) (d : database) :
  products (init_db env d) = products d.
Proof. reflexivity. Qed.

Lemma create_admin_products (env : environment) (session : Session.t)
  (d : database) :
  products (db_after (create_admin env session d)) = products d.
Proof.
  unfold App.create_admin, get_db_connection.
  destruct (db_available env); [|reflexivity].
  simpl. destruct (find _ _) as [u|] eqn:F; [reflexivity|].
  unfold insert_user. simpl.
  destruct (existsb _ _); reflexivity.
Qed.



(** ** The stored-row invariant *)

Lemma accepted_values (form : form_data) (x : float) (n : Z) :
  errors (validate form) = [] ->
  price (validate form) = Some x -> quantity (validate form) = Some n ->
  float_lt x zero = false /\ 0 <= n.
Proof.
  intros E P Q.
  destruct (validate_accepts form E) as (x0 & n0 & P0 & Q0 & L & G & _).
  rewrite P in P0. rewrite Q in Q0. inversion P0. inversion Q0. subst.
  now split.
Qed.










(** ** Updating *)

Lemma map_if_none {A} (f : A -> bool) (g : A -> A) (l : list A) :
  find f l = None -> map (fun a => if f a then g a else a) l = l.
Proof.
  induction l as [|a l IH]; simpl; [reflexivity|].
  destruct (f a); [discriminate|].
  intros H. now rewrite IH.
Qed.

Lemma set_products_same (d : database) :
  set_products (products d) (products_seq d) d = d.
Proof. now destruct d. Qed.

(** A POST to [edit_product] with an accepted submission for an id that
    no row carries: the UPDATE matches nothing, the store stays as it
    was, and the view announces a successful update all the same. *)
Lemma edit_product_unknown_id (env : environment) (id : Z)
  (form : form_data) (session : Session.t) (d : database) :
  db_available env = true ->
  errors (validate form) = [] ->
  (forall n, quantity (validate form) = Some n -> fits_int64 n = true) ->
  fits_int64 id = true ->
  find (has_id id) (products d) = None ->
  let o := edit_product env id POST form session d in
  returned o = redirect ep_dashboard
  /\ flashed o
     = [(fstr ["Product "; dquote; product_name (validate form); dquote;
               " updated successfully!"], "success")]
  /\ db_after o = d.
Proof.
  intros A Er Fq Fi N.
  destruct (validate_accepts form Er) as (x & n & P & Q & _).
  specialize (Fq n Q).
  unfold App.edit_product, get_db_connection. rewrite A, Er, P, Q.
  unfold update_product. rewrite (bind_int_fits n Fq), (bind_int_fits id Fi).
  destruct (bind_real x) as [x'|].
  - simpl. rewrite (map_if_none _ _ _ N), set_products_same. now repeat split.
  - replace (existsb (has_id id) (products (txn (connect d)))) with false.
    + now repeat split.
    + simpl. symmetry. apply not_true_is_false. intros Ex.
      apply existsb_exists in Ex. destruct Ex as (p & Hin & Hp).
      apply (find_none _ _ N) in Hin. congruence.
Qed.

(** C1 (how the code answers). On the freshly initialised store, which
    holds no product, [update(999, "Bandage", "Pharmacy", "4.50", "5")]
    leaves the store unchanged and flashes the success message of an
    update, where [get(999)] and [delete(999)] flash "Product not
    found.": the POST branch of [edit_product] has no such check. *)
Theorem update_of_missing_product_reports_success :
  let o := Example.edit 999 "Bandage" "Pharmacy" "4.50" "5" Example.fresh in
  products Example.fresh = []
  /\ returned o = redirect ep_dashboard
  /\ flashed o
     = [(fstr ["Product "; dquote; "Bandage"; dquote; " updated successfully!"],
         "success")]
  /\ db_after o = Example.fresh
  /\ not_found (get (Example.env 0) 999 Example.staff Example.fresh)
  /\ not_found (delete_product (Example.env 0) 999 Example.staff Example.fresh).
Proof. vm_compute. repeat split; reflexivity. Qed.


(** ** Logging in *)

(** The three ways a POST to [login] ends once both fields are filled in
    and the database can be opened. *)
Lemma login_lookup (env : environment) (form : form_data)
  (session : Session.t) (d : database) :
  let name := strip (form_get form "username" "") in
  let pw := form_get form "password" "" in
  Session.has_user_id session = false ->
  db_available env = true ->
  truthy name = true -> truthy pw = true ->
  login env POST form session d
  = match find (has_username name) (users d) with
    | Some u =>
        if check_password_hash (User.password u) pw then
          finish (redirect ep_dashboard)
            [(fstr ["Welcome back, "; name; "!"], "success")]
            {| Session.permanent := true;
               Session.user_id := Some (User.id u);
               Session.username := Some (User.username u) |}
            d [SelectUserByUsername name]
        else
          finish login_html [danger "Invalid username or password."]
            session d [SelectUserByUsername name]
    | None =>
        finish login_html [danger "Invalid username or password."]
          session d [SelectUserByUsername name]
    end.
Proof.
  intros name pw S A N P. unfold App.login, get_db_connection.
  fold name pw. rewrite S, A, N, P. simpl.
  destruct (find _ _) as [u|]; [|reflexivity].
  destruct (check_password_hash _ _); reflexivity.
Qed.

Lemma form_get_login (a b : str) :
  form_get [("username", a); ("password", b)] "username" "" = a
  /\ form_get [("username", a); ("password", b)] "password" "" = b.
Proof. split; reflexivity. Qed.

(** What the answer holds.  Two failing attempts, one with a username
    that the store does not hold and one with a stored username and a
    password that the hash comparison rejects, get the same page, the
    same single message, and leave the session and the store untouched.
    A successful attempt puts the user's id and username in the session
    and nothing else of the row: the answer is written without the
    stored hash. *)
Lemma login_answers_alike :
  forall (env : environment) (form1 form2 : form_data)
         (session : Session.t) (d : database) (u : User.row),
    let name1 := strip (form_get form1 "username" "") in
    let pw1 := form_get form1 "password" "" in
    let name2 := strip (form_get form2 "username" "") in
    let pw2 := form_get form2 "password" "" in
    Session.has_user_id session = false ->
    db_available env = true ->
    truthy name1 = true -> truthy pw1 = true ->
    truthy name2 = true -> truthy pw2 = true ->
    find (has_username name1) (users d) = None ->
    find (has_username name2) (users d) = Some u ->
    check_password_hash (User.password u) pw2 = false ->
    observable (login env POST form1 session d)
    = observable (login env POST form2 session d)
    /\ observable (login env POST form2 session d)
       = (login_html, [danger "Invalid username or password."], session)
    /\ db_after (login env POST form1 session d) = d
    /\ db_after (login env POST form2 session d) = d
    /\ (forall pw : str,
          truthy pw = true ->
          check_password_hash (User.password u) pw = true ->
          login env POST [("username", name2); ("password", pw)] session d
          = finish (redirect ep_dashboard)
              [(fstr ["Welcome back, "; name2; "!"], "success")]
              {| Session.permanent := true;
                 Session.user_id := Some (User.id u);
                 Session.username := Some (User.username u) |}
              d [SelectUserByUsername name2]).
Proof.
  intros env form1 form2 session d u name1 pw1 name2 pw2
    S A N1 P1 N2 P2 F1 F2 C.
  pose proof (login_lookup env form1 session d S A N1 P1) as E1.
  pose proof (login_lookup env form2 session d S A N2 P2) as E2.
  fold name1 in E1. fold name2 pw2 in E2.
  rewrite F1 in E1. rewrite F2, C in E2.
  rewrite E1, E2. repeat split.
  intros pw P K.
  pose proof (login_lookup env [("username", name2); ("password", pw)]
                session d S A) as E.
  cbv zeta in E.
  destruct (form_get_login name2 pw) as [Gu Gp]. rewrite Gu, Gp in E.
  assert (Hs : strip name2 = name2) by apply strip_idempotent.
  rewrite !Hs, F2, K in E. now apply E.
Qed.

(** The hasher is called for a stored username and for no other. *)
Lemma login_hash_calls_lookup (env : environment) (form : form_data)
  (session : Session.t) (d : database) :
  let name := strip (form_get form "username" "") in
  let pw := form_get form "password" "" in
  Session.has_user_id session = false ->
  db_available env = true ->
  truthy name = true -> truthy pw = true ->
  login_hash_calls env POST form session d
  = match find (has_username name) (users d) with
    | Some u => [(User.password u, pw)]
    | None => []
    end.
Proof.
  intros name pw S A N P. unfold login_hash_calls, get_db_connection.
  fold name pw. rewrite S, A, N, P. simpl.
  destruct (find _ _) as [u|]; reflexivity.
Qed.

(** An attempt that ends logged in went through the hasher, and the
    hasher accepted. *)
Lemma login_success_hashes (env : environment) (form : form_data)
  (session : Session.t) (d : database) :
  let name := strip (form_get form "username" "") in
  let pw := form_get form "password" "" in
  Session.has_user_id session = false ->
  db_available env = true ->
  truthy name = true -> truthy pw = true ->
  Session.has_user_id (session_after (login env POST form session d))
  = true ->
  exists h : str,
    login_hash_calls env POST form session d = [(h, pw)]
    /\ check_password_hash h pw = true.
Proof.
  intros name pw S A N P.
  rewrite (login_lookup env form session d S A N P).
  rewrite (login_hash_calls_lookup env form session d S A N P).
  fold name pw.
  destruct (find _ _) as [u|]; simpl.
  - destruct (check_password_hash (User.password u) pw) eqn:C; simpl.
    + intros _. now exists (User.password u).
    + rewrite S. discriminate.
  - rewrite S. discriminate.
Qed.


(** C10. A POST to [login] trims the submitted username and nothing
    else: the answer is the one given to the trimmed username with the
    same password; when the trimmed username belongs to a row, the
    attempt succeeds exactly when the hasher accepts the password as it
    was submitted (so it fails for a padded password that the hasher
    rejects); and when the trimmed username or the password is empty the
    attempt is turned down with "Please enter both username and
    password." without opening the database or running any statement. *)
Theorem login_trims_username_only :
  forall (env : environment) (form : form_data) (session : Session.t)
         (d : database),
    let name := form_get form "username" "" in
    let pw := form_get form "password" "" in
    Session.has_user_id session = false ->
    login env POST form session d
    = login env POST [("username", strip name); ("password", pw)] session d
    /\ (forall u : User.row,
          db_available env = true ->
          truthy (strip name) = true -> truthy pw = true ->
          find (has_username (strip name)) (users d) = Some u ->
          (returned (login env POST form session d) = redirect ep_dashboard
           <-> check_password_hash (User.password u) pw = true)
          /\ (forall padded : str,
                truthy padded = true ->
                check_password_hash (User.password u) padded = false ->
                observable
                  (login env POST [("username", name); ("password", padded)]
                     session d)
                = (login_html, [danger "Invalid username or password."],
                   session)))
    /\ (truthy (strip name) = false \/ truthy pw = false ->
        forall env' : environment,
          login env' POST form session d
          = finish login_html
              [danger "Please enter both username and password."]
              session d []).
Proof.
  intros env form session d name pw S. split; [|split].
  - unfold App.login.
    destruct (form_get_login (strip name) pw) as [Gu Gp]. rewrite Gu, Gp.
    fold name pw. now rewrite strip_idempotent.
  - intros u A N P F. split.
    + pose proof (login_lookup env form session d S A N P) as E.
      fold name pw in E. rewrite F in E. rewrite E.
      destruct (check_password_hash (User.password u) pw); simpl;
        split; congruence.
    + intros padded Pp K.
      pose proof (login_lookup env [("username", name); ("password", padded)]
                    session d S A N Pp) as E.
      cbv zeta in E.
      destruct (form_get_login name padded) as [Gu Gp]. rewrite Gu, Gp in E.
      rewrite F, K in E. now rewrite E.
  - intros H env'. unfold App.login. fold name pw. rewrite S.
    destruct H as [H | H]; rewrite H; [reflexivity|].
    now rewrite orb_true_r.
Qed.


(** ** Seeding the default administrator *)

(** The row that the first initialisation of a store without an
    administrator inserts. *)
Lemma init_db_users (env : environment) (d : database) :
  users (init_db env d)
  = users d
    ++ (if existsb (has_username "admin") (users d) then []
        else [{| User.id := next_rowid (users_seq d) (map User.id (users d));
                 User.username := "admin";
                 User.password :=
                   generate_password_hash (salt env) "admin123" |}]).
Proof.
  unfold App.init_db, insert_or_ignore_user. simpl.
  destruct (existsb _ _); [now rewrite app_nil_r | reflexivity].
Qed.

Lemma init_db_has_admin (env : environment) (d : database) :
  existsb (has_username "admin") (users (init_db env d)) = true.
Proof.
  rewrite init_db_users.
  destruct (existsb (has_username "admin") (users d)) eqn:E.
  - now rewrite app_nil_r.
  - rewrite existsb_app. simpl. now rewrite orb_true_r.
Qed.

(** Once an administrator is stored, further initialisations leave the
    rows of [users] as they are. *)
Lemma init_db_again (envs : list environment) (d : database) :
  existsb (has_username "admin") (users d) = true ->
  users (fold_left (fun d e => init_db e d) envs d) = users d.
Proof.
  revert d. induction envs as [|e envs IH]; intros d H; simpl;
    [reflexivity|].
  rewrite IH.
  - rewrite init_db_users, H. apply app_nil_r.
  - apply init_db_has_admin.
Qed.

Lemma count_username_absent (name : str) (rows : list User.row) :
  ~ In name (map User.username rows) -> count_username name rows = 0%nat.
Proof.
  unfold count_username. induction rows as [|r rows IH]; simpl;
    [reflexivity|].
  intros H. unfold has_username at 1.
  destruct (String.eqb (User.username r) name) eqn:E.
  - apply String.eqb_eq in E. exfalso. apply H. now left.
  - apply IH. intros K. apply H. now right.
Qed.

(** With [username] unique, a username that occurs is carried by exactly
    one row. *)
Lemma count_username_unique (name : str) (rows : list User.row) :
  NoDup (map User.username rows) ->
  existsb (has_username name) rows = true ->
  count_username name rows = 1%nat.
Proof.
  unfold count_username. induction rows as [|r rows IH]; simpl;
    [discriminate|].
  intros N H. inversion N as [|? ? Hn N']; subst.
  unfold has_username at 1. unfold has_username at 1 in H.
  destruct (String.eqb (User.username r) name) eqn:E; simpl.
  - apply String.eqb_eq in E. subst name.
    pose proof (count_username_absent _ _ Hn) as K.
    unfold count_username in K. now rewrite K.
  - now apply IH.
Qed.

Lemma existsb_has_username (name : str) (rows : list User.row) :
  existsb (has_username name) rows = false ->
  ~ In name (map User.username rows).
Proof.
  intros H Hin. apply in_map_iff in Hin. destruct Hin as (r & E & Hin).
  assert (K : existsb (has_username name) rows = true).
  { apply existsb_exists. exists r. split; [exact Hin|].
    unfold has_username. now apply String.eqb_eq. }
  congruence.
Qed.

(** [create_admin] adds the same row under the same condition, when it
    can open the database. *)
Lemma create_admin_users (env : environment) (session : Session.t)
  (d : database) :
  users (db_after (create_admin env session d))
  = users d
    ++ (if db_available env && negb (existsb (has_username "admin") (users d))
        then [{| User.id :=
                   next_rowid (users_seq d) (map User.id (users d));
                 User.username := "admin";
                 User.password :=
                   generate_password_hash (salt env) "admin123" |}]
        else []).
Proof.
  unfold App.create_admin, get_db_connection.
  destruct (db_available env); simpl; [|now rewrite app_nil_r].
  destruct (find (has_username "admin") (users d)) as [u|] eqn:F.
  - apply find_some in F. destruct F as [Hin Hu].
    assert (K : existsb (has_username "admin") (users d) = true)
      by (apply existsb_exists; now exists u).
    rewrite K. simpl. now rewrite app_nil_r.
  - assert (K : existsb (has_username "admin") (users d) = false).
    { apply not_true_is_false. intros Ex. apply existsb_exists in Ex.
      destruct Ex as (u & Hin & Hu). apply (find_none _ _ F) in Hin.
      congruence. }
    unfold insert_user. simpl. rewrite K. reflexivity.
Qed.

(** C6. Seeding the default administrator is idempotent.  From any
    [users] table (one username per row), one initialisation or more in
    a row leave the rows that were there as they were, followed by one
    new row for "admin", with the hash of the default password, exactly
    when no row had that username; afterwards one row carries the
    username "admin", usernames are still unique, and [create_admin]
    adds nothing. *)
Theorem default_admin_seeded_once :
  forall (d : database) (env : environment) (envs : list environment),
    NoDup (map User.username (users d)) ->
    let d' := fold_left (fun d e => init_db e d) (env :: envs) d in
    users d'
    = users d
      ++ (if existsb (has_username "admin") (users d) then []
          else [{| User.id :=
                     next_rowid (users_seq d) (map User.id (users d));
                   User.username := "admin";
                   User.password :=
                     generate_password_hash (salt env) "admin123" |}])
    /\ count_username "admin" (users d') = 1%nat
    /\ NoDup (map User.username (users d'))
    /\ (forall (env' : environment) (session : Session.t),
          users (db_after (create_admin env' session d')) = users d').
Proof.
  intros d env envs N d'.
  assert (E : users d' = users (init_db env d)).
  { unfold d'. simpl. apply init_db_again, init_db_has_admin. }
  assert (A : existsb (has_username "admin") (users d') = true)
    by (rewrite E; apply init_db_has_admin).
  assert (N' : NoDup (map User.username (users d'))).
  { rewrite E, init_db_users.
    destruct (existsb (has_username "admin") (users d)) eqn:Ex.
    - now rewrite app_nil_r.
    - rewrite map_app. simpl.
      apply NoDup_app; [exact N | repeat constructor; intros [] |].
      intros a Ha [<- | []].
      now apply (existsb_has_username "admin" (users d)). }
  split; [rewrite E; apply init_db_users|].
  split; [now apply count_username_unique|].
  split; [exact N'|].
  intros env' session. rewrite create_admin_users, A, andb_false_r.
  apply app_nil_r.
Qed.


(** ** The dashboard: listing *)

Lemma insert_desc_perm (x : Product.row) (l : list Product.row) :
  Permutation (x :: l) (insert_desc x l).
Proof.
  induction l as [|y l IH]; simpl; [reflexivity|].
  destruct (Product.created_at y <=? Product.created_at x); [reflexivity|].
  rewrite perm_swap. now constructor.
Qed.

Lemma order_by_created_at_desc_perm (l : list Product.row) :
  Permutation l (order_by_created_at_desc l).
Proof.
  induction l as [|x l IH]; simpl; [constructor|].
  rewrite <- insert_desc_perm. now constructor.
Qed.

Lemma insert_desc_sorted (x : Product.row) (l : list Product.row) :
  StronglySorted newer_or_equal l ->
  StronglySorted newer_or_equal (insert_desc x l).
Proof.
  induction 1 as [|y l S IH F]; simpl.
  - repeat constructor.
  - destruct (Product.created_at y <=? Product.created_at x) eqn:E.
    + apply Z.leb_le in E. constructor; [now constructor|].
      constructor; [exact E|].
      eapply Forall_impl; [|exact F].
      unfold newer_or_equal. intros z Hz. lia.
    + apply Z.leb_gt in E. constructor; [exact IH|].
      apply (Permutation_Forall (insert_desc_perm x l)).
      constructor; [|exact F].
      unfold newer_or_equal. lia.
Qed.

Lemma order_by_created_at_desc_sorted (l : list Product.row) :
  StronglySorted newer_or_equal (order_by_created_at_desc l).
Proof.
  induction l as [|x l IH]; simpl; [constructor|].
  now apply insert_desc_sorted.
Qed.

(** What [dashboard] returns once the database is open: the listing and
    the statistics when the total can be computed, an empty page and the
    error otherwise. *)
Lemma dashboard_open (env : environment) (session : Session.t)
  (d : database) :
  db_available env = true ->
  dashboard env session d
  = match sum (map Product.quantity (products d)) with
    | inr s =>
        finish
          (dashboard_html
             (map mark_low_stock (order_by_created_at_desc (products d)))
             (Some {| total_products := count (products d);
                      total_stock := coalesce s 0;
                      low_stock_count :=
                        count (filter (fun p => Product.quantity p <? 10)
                                 (products d)) |})
             (Some LOW_STOCK_THRESHOLD))
          [] session d
          [SelectProductsNewestFirst; SelectCountAndStock;
           SelectLowStockCount LOW_STOCK_THRESHOLD]
    | inl e =>
        finish (dashboard_html [] None None) [error_occurred e] session d
          [SelectProductsNewestFirst; SelectCountAndStock]
    end.
Proof.
  intros A. unfold dashboard, get_db_connection. rewrite A.
  unfold select_count_and_stock. simpl.
  destruct (sum _) as [e|s]; reflexivity.
Qed.

(** ** The dashboard: statistics *)

Lemma sum_int64_total (acc : Z) (l : list Z) :
  0 <= acc -> Forall (fun q => 0 <= q) l -> acc + total l <= INT64_MAX ->
  sum_int64 acc l = Some (acc + total l).
Proof.
  revert acc. induction l as [|q l IH]; simpl; intros acc Ha F B.
  - now rewrite Z.add_0_r.
  - inversion F as [|? ? Hq F']; subst.
    assert (T : 0 <= total l).
    { clear -F'. induction F'; simpl; lia. }
    assert (K : fits_int64 (acc + q) = true).
    { unfold fits_int64, INT64_MIN, INT64_MAX in *.
      apply andb_true_intro. split; apply Z.leb_le; lia. }
    rewrite K, IH; [f_equal; lia | lia | exact F' | lia].
Qed.

Lemma sum_total (l : list Z) :
  Forall (fun q => 0 <= q) l -> total l <= INT64_MAX ->
  exists s, sum l = inr s /\ coalesce s 0 = total l.
Proof.
  intros F B. destruct l as [|q l]; [now exists None|].
  unfold sum. rewrite (sum_int64_total 0 (q :: l)); [|lia|exact F|lia].
  now exists (Some (0 + total (q :: l))).
Qed.

(** C5 (amended). When the database can be opened, the quantities are
    at least zero and their total is at most 2^63 - 1, [dashboard]
    shows [total_products] = the number of rows, [total_stock] = the sum
    of the quantities (0 without rows) and [low_stock_count] = the number
    of rows with a quantity below 10, and lists every stored product,
    newest first, with the flag [is_low_stock] = [quantity < 10]. *)
Theorem dashboard_statistics :
  forall (env : environment) (session : Session.t) (d : database),
    db_available env = true ->
    Forall (fun p => 0 <= Product.quantity p) (products d) ->
    total (map Product.quantity (products d)) <= INT64_MAX ->
    stats_as_specified env session d
    /\ returned (dashboard env session d)
       = dashboard_html
           (map mark_low_stock (order_by_created_at_desc (products d)))
           (Some (stats_of (products d))) (Some 10).
Proof.
  intros env session d A F B.
  assert (F' : Forall (fun q => 0 <= q) (map Product.quantity (products d)))
    by now apply Forall_map.
  destruct (sum_total _ F' B) as (s & Es & Ec).
  assert (R : returned (dashboard env session d)
              = dashboard_html
                  (map mark_low_stock
                     (order_by_created_at_desc (products d)))
                  (Some (stats_of (products d))) (Some 10)).
  { rewrite (dashboard_open env session d A), Es. simpl.
    rewrite Ec. reflexivity. }
  split; [|exact R].
  unfold stats_as_specified. rewrite R. simpl. split; [reflexivity|].
  apply Forall_map, Forall_forall. intros p _. reflexivity.
Qed.


(** C9 (amended). When the database can be opened, the quantities are
    at least zero and their total is at most 2^63 - 1, the products that
    [dashboard] lists are all the stored products, each once, ordered by
    [created_at], newest first (ties in the order of their ids). *)
Theorem list_all_newest_first :
  forall (env : environment) (session : Session.t) (d : database),
    db_available env = true ->
    Forall (fun p => 0 <= Product.quantity p) (products d) ->
    total (map Product.quantity (products d)) <= INT64_MAX ->
    list_all_as_specified env session d
    /\ map row (page_products (returned (dashboard env session d)))
       = order_by_created_at_desc (products d).
Proof.
  intros env session d A F B.
  assert (F' : Forall (fun q => 0 <= q) (map Product.quantity (products d)))
    by now apply Forall_map.
  destruct (sum_total _ F' B) as (s & Es & _).
  assert (R : map row (page_products (returned (dashboard env session d)))
              = order_by_created_at_desc (products d)).
  { rewrite (dashboard_open env session d A), Es. simpl.
    rewrite map_map. simpl. apply map_id. }
  split; [|exact R].
  unfold list_all_as_specified. cbv zeta. rewrite R. split.
  - apply order_by_created_at_desc_perm.
  - apply order_by_created_at_desc_sorted.
Qed.


(** ** Deleting and reading back *)

Lemma filter_all {A} (f : A -> bool) (l : list A) :
  (forall a, In a l -> f a = true) -> filter f l = l.
Proof.
  induction l as [|a l IH]; simpl; intros H; [reflexivity|].
  rewrite (H a (or_introl eq_refl)), IH; [reflexivity|].
  intros b Hb. apply H. now right.
Qed.

Lemma find_filter_negb {A} (f : A -> bool) (l : list A) :
  find f (filter (fun a => negb (f a)) l) = None.
Proof.
  induction l as [|a l IH]; simpl; [reflexivity|].
  destruct (f a) eqn:E; simpl; [exact IH|]. now rewrite E.
Qed.

(** With [id] a key, deleting by id takes out the row that a lookup by
    id finds, and no other. *)
Lemma filter_unique (i : Z) (p : Product.row) (l : list Product.row) :
  NoDup (map Product.id l) ->
  find (has_id i) l = Some p ->
  exists before after,
    l = before ++ p :: after
    /\ filter (fun q => negb (has_id i q)) l = before ++ after.
Proof.
  induction l as [|q l IH]; simpl; intros N F; [discriminate|].
  inversion N as [|? ? Hn N']; subst.
  destruct (has_id i q) eqn:E; simpl.
  - inversion F; subst q. exists [], l. split; [reflexivity|].
    simpl. apply filter_all. intros a Ha.
    unfold has_id in *. apply Z.eqb_eq in E.
    destruct (Product.id a =? i) eqn:Ea; [|reflexivity].
    apply Z.eqb_eq in Ea. exfalso. apply Hn. rewrite E, <- Ea.
    now apply in_map.
  - destruct (IH N' F) as (b & a & -> & Ef).
    exists (q :: b), a. split; [reflexivity|].
    simpl. now rewrite Ef.
Qed.

(** [get] on a store that holds no row with the id. *)
Lemma get_missing (env : environment) (id : Z) (session : Session.t)
  (d : database) :
  db_available env = true -> fits_int64 id = true ->
  find (has_id id) (products d) = None ->
  get env id session d
  = finish (redirect ep_dashboard) [danger "Product not found."] session d
      [SelectProductById id].
Proof.
  intros A F N. unfold get, App.edit_product, get_db_connection.
  rewrite A. unfold select_product_by_id. rewrite (bind_int_fits id F).
  simpl. now rewrite N.
Qed.

(** [get] on a store that holds a row with the id. *)
Lemma get_present (env : environment) (id : Z) (session : Session.t)
  (d : database) (r : Product.row) :
  db_available env = true -> fits_int64 id = true ->
  find (has_id id) (products d) = Some r ->
  get env id session d
  = finish (edit_product_html r) [] session d [SelectProductById id].
Proof.
  intros A F N. unfold get, App.edit_product, get_db_connection.
  rewrite A. unfold select_product_by_id. rewrite (bind_int_fits id F).
  simpl. now rewrite N.
Qed.

(** C8 (amended). For every id in the signed 64-bit range (the ids a
    row can carry), with [id] a key of [products] and the database open:
    when a row has the id, [delete_product] removes that row and no
    other, and flashes its name; when none has, it flashes "Product not
    found." and changes nothing; and a [get] of the id afterwards
    flashes "Product not found.". *)
Theorem delete_then_get :
  forall (env : environment) (id : Z) (session : Session.t) (d : database),
    db_available env = true ->
    fits_int64 id = true ->
    NoDup (map Product.id (products d)) ->
    delete_as_specified env id session d.
Proof.
  intros env id session d A F N. unfold delete_as_specified.
  unfold delete_product, get_db_connection. rewrite A.
  unfold select_product_name_by_id, delete_product_by_id.
  rewrite (bind_int_fits id F). simpl.
  destruct (find (has_id id) (products d)) as [p|] eqn:E; simpl.
  - split.
    + repeat split.
      destruct (filter_unique id p (products d) N E) as (b & a & E1 & E2).
      exists b, a. now split.
    + rewrite get_missing; [now split | exact A | exact F |].
      simpl. apply find_filter_negb.
  - split; [now repeat split|].
    rewrite get_missing; [now split | exact A | exact F | exact E].
Qed.

(** ** Inserting and reading back *)

Lemma next_rowid_fresh (seq i : Z) (ids : list Z) :
  In i ids -> i < next_rowid seq ids.
Proof.
  unfold next_rowid. intros H.
  assert (K : i <= fold_right Z.max 0 ids).
  { induction ids as [|j ids IH]; simpl; [destruct H|].
    destruct H as [-> | H]; [lia|]. specialize (IH H). lia. }
  lia.
Qed.

Lemma find_new_row (i : Z) (l : list Product.row) (r : Product.row) :
  (forall p, In p l -> Product.id p < i) -> Product.id r = i ->
  find (has_id i) (l ++ [r]) = Some r.
Proof.
  intros H E. induction l as [|q l IH]; simpl.
  - unfold has_id. rewrite E, Z.eqb_refl. reflexivity.
  - unfold has_id at 1.
    assert (K : Product.id q < i) by (apply H; now left).
    destruct (Product.id q =? i) eqn:Eq; [apply Z.eqb_eq in Eq; lia|].
    apply IH. intros p Hp. apply H. now right.
Qed.

(** C7 (amended). A submission that passes validation, whose price is at
    least zero and whose quantity is at most 2^63 - 1, is stored under
    the next rowid (as long as that rowid is in the 64-bit range), and
    [get] on that id shows a row whose name and category are the
    submitted ones with surrounding white space trimmed, whose price is
    the converted price (the same number; a negative zero is kept as
    zero), whose quantity is the converted quantity, and whose
    [created_at] is the reading of the database clock during the call. *)
Theorem insert_then_get :
  forall (env env' : environment) (form : form_data)
         (session session' : Session.t) (d : database) (x : float) (n : Z),
    db_available env = true ->
    db_available env' = true ->
    errors (validate form) = [] ->
    float_of_str (form_get form "price" "") = Some x ->
    float_le zero x = true ->
    int int_max_str_digits (form_get form "quantity" "") = Some n ->
    n <= INT64_MAX ->
    let id := next_rowid (products_seq d) (map Product.id (products d)) in
    id <= INT64_MAX ->
    let o := add_product env POST form session d in
    returned o = redirect ep_dashboard
    /\ exists r : Product.row,
         products (db_after o) = products d ++ [r]
         /\ returned (get env' id session' (db_after o)) = edit_product_html r
         /\ Product.id r = id
         /\ Product.product_name r = strip (form_get form "product_name" "")
         /\ Product.category r = strip (form_get form "category" "")
         /\ bind_real x = Some (Product.price r)
         /\ float_eq (Product.price r) x = true
         /\ Product.quantity r = n
         /\ Product.created_at r = now env.
Proof.
  intros env env' form session session' d x n A A' Er P G Q B id Bi o.
  destruct (validate_fields form) as (Nf & Cf & Pf & Qf).
  rewrite P in Pf. rewrite Q in Qf.
  destruct (accepted_values form x n Er Pf Qf) as [L Gn].
  assert (Fn : fits_int64 n = true).
  { unfold fits_int64, INT64_MIN, INT64_MAX in *.
    apply andb_true_intro. split; apply Z.leb_le; lia. }
  assert (Fi : fits_int64 id = true).
  { unfold fits_int64, INT64_MIN, INT64_MAX in *.
    apply andb_true_intro. split; apply Z.leb_le; [|lia].
    assert (K : 0 <= fold_right Z.max 0 (map Product.id (products d))).
    { generalize (map Product.id (products d)). intros ids.
      induction ids as [|j ids IH]; simpl; lia. }
    unfold id, next_rowid. lia. }
  assert (R : exists x', bind_real x = Some x').
  { destruct x as [s | s | | s m e]; simpl; eauto. discriminate G. }
  destruct R as (x' & R).
  assert (E : o = finish (redirect ep_dashboard)
                    [(fstr ["Product "; dquote; product_name (validate form);
                            dquote; " added successfully!"], "success")]
                    session
                    (set_products
                       (products d
                        ++ [new_row d (product_name (validate form))
                              (category (validate form)) x' n (now env)])
                       id d)
                    [InsertProduct (product_name (validate form))
                       (category (validate form)) x n]).
  { unfold o, App.add_product, get_db_connection.
    rewrite Er, Pf, Qf, A. unfold insert_product.
    rewrite (bind_int_fits n Fn), R. reflexivity. }
  rewrite E. simpl. split; [reflexivity|].
  exists (new_row d (product_name (validate form))
            (category (validate form)) x' n (now env)).
  split; [reflexivity|]. split.
  - rewrite (get_present env' id session' _
               (new_row d (product_name (validate form))
                  (category (validate form)) x' n (now env)) A' Fi);
      [reflexivity|].
    simpl. apply find_new_row; [|reflexivity].
    intros p Hp. apply next_rowid_fresh. now apply in_map.
  - simpl. rewrite Nf, Cf. repeat split; try assumption.
    now apply bind_real_eq.
Qed.


(** A GET to [edit_product] reads neither the form nor the digit limit:
    it is [get]. *)
Lemma edit_product_get (env : environment) (id : Z) (form : form_data)
  (session : Session.t) (d : database) :
  edit_product env id GET form session d = get env id session d.
Proof. reflexivity. Qed.

(** ** The session gate *)

(** Without a logged-in user, a request for the dashboard or for a view
    that changes products gets no further than the gate: no statement is
    executed, the store and the session stay as they were, and the answer
    is the redirect to the login page with its warning (or the refusal of
    the method, for a POST to a GET-only rule). *)
Theorem gate_blocks_anonymous :
  forall (env : environment) (req : request) (session : Session.t)
         (d : database),
    Session.has_user_id session = false ->
    match target req with
    | url_dashboard | url_add_product | url_edit_product _
    | url_delete_product _ =>
        let o := app env req session d in
        db_after o = d /\ executed o = [] /\ session_after o = session
        /\ (observable o
            = (redirect ep_login,
               [("Please login to access this page.", "warning")], session)
            \/ returned o = method_not_allowed)
    | _ => True
    end.
Proof.
  intros env req session d S. unfold App.app, login_required.
  destruct (target req); try exact I; destruct (method req); rewrite ?S;
    simpl; repeat split; auto.
Qed.


(** ** Accepted submissions *)

(** What [add_product] does with an accepted submission that the
    database can store. *)
Lemma add_product_accepted (env : environment) (form : form_data)
  (session : Session.t) (d : database) (x x' : float) (n : Z) :
  db_available env = true ->
  errors (validate form) = [] ->
  price (validate form) = Some x -> quantity (validate form) = Some n ->
  fits_int64 n = true -> bind_real x = Some x' ->
  add_product env POST form session d
  = finish (redirect ep_dashboard)
      [(fstr ["Product "; dquote; product_name (validate form); dquote;
              " added successfully!"], "success")]
      session
      (set_products
         (products d
          ++ [new_row d (product_name (validate form))
                (category (validate form)) x' n (now env)])
         (next_rowid (products_seq d) (map Product.id (products d))) d)
      [InsertProduct (product_name (validate form))
         (category (validate form)) x n].
Proof.
  intros A Er P Q F R. unfold App.add_product, get_db_connection.
  rewrite Er, P, Q, A. unfold insert_product.
  rewrite (bind_int_fits n F), R. reflexivity.
Qed.

(** What [edit_product] does with an accepted submission that the
    database can store. *)
Lemma edit_product_accepted (env : environment) (id : Z) (form : form_data)
  (session : Session.t) (d : database) (x x' : float) (n : Z) :
  db_available env = true ->
  errors (validate form) = [] ->
  price (validate form) = Some x -> quantity (validate form) = Some n ->
  fits_int64 n = true -> fits_int64 id = true -> bind_real x = Some x' ->
  edit_product env id POST form session d
  = finish (redirect ep_dashboard)
      [(fstr ["Product "; dquote; product_name (validate form); dquote;
              " updated successfully!"], "success")]
      session
      (set_products
         (updated id (product_name (validate form))
            (category (validate form)) x' n (products d))
         (products_seq d) d)
      [UpdateProduct (product_name (validate form))
         (category (validate form)) x n id].
Proof.
  intros A Er P Q F Fi R. unfold App.edit_product, get_db_connection.
  rewrite A, Er, P, Q. unfold update_product.
  rewrite (bind_int_fits n F), (bind_int_fits id Fi), R. reflexivity.
Qed.

(** A price that is at least zero can be stored. *)
Lemma bind_real_some (x : float) :
  float_le zero x = true -> exists x', bind_real x = Some x'.
Proof.
  destruct x as [s | s | | s m e]; simpl; intros G; eauto. discriminate G.
Qed.

Lemma fits_int64_range (n : Z) :
  0 <= n -> n <= INT64_MAX -> fits_int64 n = true.
Proof.
  intros L U. unfold fits_int64, INT64_MIN, INT64_MAX in *.
  apply andb_true_intro. split; apply Z.leb_le; lia.
Qed.


(** ** Keys *)

Lemma next_rowid_above (seq : Z) (ids : list Z) :
  seq < next_rowid seq ids /\ 0 < next_rowid seq ids.
Proof.
  unfold next_rowid.
  assert (K : 0 <= fold_right Z.max 0 ids)
    by (induction ids as [|j ids IH]; simpl; lia).
  lia.
Qed.

Lemma sorted_snoc (ids : list Z) (i : Z) :
  StronglySorted Z.lt ids -> Forall (fun j => j < i) ids ->
  StronglySorted Z.lt (ids ++ [i]).
Proof.
  induction 1 as [|j ids S IH F]; simpl; intros B.
  - repeat constructor.
  - inversion B as [|? ? Bj B']; subst.
    constructor; [now apply IH|].
    apply Forall_app. split; [exact F | now repeat constructor].
Qed.

Lemma sorted_filter (f : Product.row -> bool) (l : list Product.row) :
  StronglySorted Z.lt (map Product.id l) ->
  StronglySorted Z.lt (map Product.id (filter f l)).
Proof.
  induction l as [|p l IH]; simpl; intros S; [constructor|].
  inversion S as [|? ? S' F]; subst.
  destruct (f p); simpl; [|now apply IH].
  constructor; [now apply IH|].
  apply Forall_forall. intros j Hj.
  apply in_map_iff in Hj. destruct Hj as (q & <- & Hq).
  apply filter_In in Hq. destruct Hq as [Hq _].
  rewrite Forall_forall in F. apply F. now apply in_map.
Qed.

Lemma updated_ids (i : Z) (name cat : str) (x : float) (n : Z)
  (l : list Product.row) :
  map Product.id (updated i name cat x n l) = map Product.id l.
Proof.
  unfold updated. rewrite map_map. apply map_ext.
  intros p. now destruct (has_id i p).
Qed.

Lemma keyed_set_products (d : database) (rows : list Product.row) (seq : Z) :
  keyed d ->
  StronglySorted Z.lt (map Product.id rows) ->
  Forall (fun p => 0 < Product.id p <= seq) rows ->
  keyed (set_products rows seq d).
Proof.
  intros (_ & _ & U1 & U2 & U3) S B. now repeat split.
Qed.

Lemma add_product_keyed (env : environment) (m : http_method)
  (form : form_data) (session : Session.t) (d : database) :
  keyed d -> keyed (db_after (add_product env m form session d)).
Proof.
  intros K.
  destruct (add_product_cases env m form session d)
    as [E | (x & n & x' & _ & _ & _ & _ & _ & E)]; rewrite E; [exact K|].
  destruct K as (S & B & U).
  destruct (next_rowid_above (products_seq d) (map Product.id (products d)))
    as [Hs Hp].
  apply keyed_set_products; [now repeat split | |].
  - rewrite map_app. simpl. apply sorted_snoc; [exact S|].
    apply Forall_forall. intros j Hj. now apply next_rowid_fresh.
  - apply Forall_app. split.
    + eapply Forall_impl; [|exact B]. simpl. intros p Hp'. lia.
    + repeat constructor; simpl; lia.
Qed.

Lemma edit_product_keyed (env : environment) (id : Z) (m : http_method)
  (form : form_data) (session : Session.t) (d : database) :
  keyed d -> keyed (db_after (edit_product env id m form session d)).
Proof.
  intros K.
  destruct (edit_product_cases env id m form session d)
    as [E | (x & n & x' & _ & _ & _ & _ & _ & _ & E)]; rewrite E; [exact K|].
  pose proof K as (S & B & U).
  fold (updated id (product_name (validate form))
          (category (validate form)) x' n (products d)).
  apply keyed_set_products; [exact K | now rewrite updated_ids |].
  unfold updated. apply Forall_map.
  eapply Forall_impl; [|exact B].
  intros p Hp. now destruct (has_id id p).
Qed.

Lemma delete_product_keyed (env : environment) (id : Z)
  (session : Session.t) (d : database) :
  keyed d -> keyed (db_after (delete_product env id session d)).
Proof.
  intros K.
  destruct (delete_product_cases env id session d) as [E | E]; rewrite E;
    [exact K|].
  pose proof K as (S & B & U).
  apply keyed_set_products; [exact K | now apply sorted_filter |].
  apply Forall_forall. intros p Hp. apply filter_In in Hp.
  rewrite Forall_forall in B. now apply B.
Qed.

(** Seeding the administrator into a keyed store. *)
Lemma keyed_seed (d : database) (pw : str) :
  keyed d ->
  existsb (has_username "admin") (users d) = false ->
  keyed
    (set_users
       (users d
        ++ [{| User.id := next_rowid (users_seq d) (map User.id (users d));
               User.username := "admin"; User.password := pw |}])
       (next_rowid (users_seq d) (map User.id (users d))) d).
Proof.
  intros (S & B & U1 & U2 & U3) E.
  destruct (next_rowid_above (users_seq d) (map User.id (users d)))
    as [Hs Hp].
  remember (next_rowid (users_seq d) (map User.id (users d))) as i eqn:Hi.
  clear Hi.
  assert (N : users d = []).
  { destruct (users d) as [|u us]; [reflexivity|].
    inversion U2 as [|? ? Hu _]; subst. simpl in E.
    unfold has_username at 1 in E. rewrite Hu in E. discriminate E. }
  rewrite N in *. unfold keyed. simpl.
  split; [exact S|]. split; [exact B|].
  split.
  { constructor; [|constructor]. simpl. lia. }
  split.
  { constructor; [reflexivity|constructor]. }
  lia.
Qed.

Lemma keyed_bump (d : database) :
  keyed d ->
  keyed (set_users (users d)
           (next_rowid (users_seq d) (map User.id (users d))) d).
Proof.
  intros (S & B & U1 & U2 & U3).
  destruct (next_rowid_above (users_seq d) (map User.id (users d)))
    as [Hs Hp].
  remember (next_rowid (users_seq d) (map User.id (users d))) as i eqn:Hi.
  clear Hi. unfold keyed. simpl.
  split; [exact S|]. split; [exact B|].
  split; [|now split].
  eapply Forall_impl; [|exact U1]. simpl. intros u Hu. lia.
Qed.

Lemma init_db_keyed (env : environment) (d : database) :
  keyed d -> keyed (init_db env d).
Proof.
  intros K. unfold App.init_db, insert_or_ignore_user. simpl.
  destruct (existsb (has_username "admin") (users d)) eqn:E.
  - now apply keyed_bump.
  - now apply keyed_seed.
Qed.

Lemma create_admin_keyed (env : environment) (session : Session.t)
  (d : database) :
  keyed d -> keyed (db_after (create_admin env session d)).
Proof.
  intros K. unfold App.create_admin, get_db_connection.
  destruct (db_available env); [|exact K]. simpl.
  destruct (find (has_username "admin") (users d)) as [u|] eqn:F;
    [exact K|].
  unfold insert_user. simpl.
  destruct (existsb (has_username "admin") (users d)) eqn:E; [exact K|].
  simpl. now apply keyed_seed.
Qed.

Lemma app_keyed (env : environment) (req : request) (session : Session.t)
  (d : database) :
  keyed d -> keyed (db_after (app env req session d)).
Proof.
  intros K. unfold App.app.
  destruct (target req), (method req);
    try (unfold index; destruct (Session.has_user_id session); exact K);
    try exact K;
    try (rewrite login_db_after; exact K);
    try (unfold login_required;
         destruct (Session.has_user_id session); [|exact K]).
  - now rewrite dashboard_db_after.
  - now apply add_product_keyed.
  - now apply add_product_keyed.
  - now apply edit_product_keyed.
  - now apply edit_product_keyed.
  - now apply delete_product_keyed.
  - now apply create_admin_keyed.
Qed.

(** In every store that can arise, the product ids grow along the table
    (no id occurs twice) and lie between 1 and the table's sequence, and
    so do the user ids; and [users] holds at most one row, named
    "admin": no view creates any other account. *)
Theorem reachable_keyed :
  forall d : database, reachable d -> keyed d.
Proof.
  induction 1 as [| env d R IH | env req session d R IH].
  - repeat split; simpl; try constructor. lia.
  - now apply init_db_keyed.
  - now apply app_keyed.
Qed.


(** ** Ids are handed out once *)

Lemma continues_refl (d : database) : continues d d.
Proof.
  split; [lia|]. intros r Hr. left. now exists r.
Qed.

Lemma continues_same_products (d d' : database) :
  products d' = products d -> products_seq d' = products_seq d ->
  continues d d'.
Proof.
  intros P S. split; [lia|]. intros r Hr. left. exists r.
  rewrite P in Hr. now repeat split.
Qed.

Lemma add_product_continues (env : environment) (m : http_method)
  (form : form_data) (session : Session.t) (d : database) :
  continues d (db_after (add_product env m form session d)).
Proof.
  destruct (add_product_cases env m form session d)
    as [E | (x & n & x' & _ & _ & _ & _ & _ & E)]; rewrite E;
    [apply continues_refl|].
  destruct (next_rowid_above (products_seq d) (map Product.id (products d)))
    as [Hs Hp].
  split; simpl; [lia|].
  intros r Hr. apply in_app_or in Hr. destruct Hr as [Hr | [<- | []]].
  - left. now exists r.
  - right. now split.
Qed.

Lemma edit_product_continues (env : environment) (id : Z) (m : http_method)
  (form : form_data) (session : Session.t) (d : database) :
  continues d (db_after (edit_product env id m form session d)).
Proof.
  destruct (edit_product_cases env id m form session d)
    as [E | (x & n & x' & _ & _ & _ & _ & _ & _ & E)]; rewrite E;
    [apply continues_refl|].
  split; simpl; [lia|].
  intros r Hr. apply in_map_iff in Hr. destruct Hr as (p & <- & Hp).
  left. exists p. now destruct (has_id id p).
Qed.

Lemma delete_product_continues (env : environment) (id : Z)
  (session : Session.t) (d : database) :
  continues d (db_after (delete_product env id session d)).
Proof.
  destruct (delete_product_cases env id session d) as [E | E]; rewrite E;
    [apply continues_refl|].
  split; simpl; [lia|].
  intros r Hr. apply filter_In in Hr. left. now exists r.
Qed.

Lemma create_admin_products_seq (env : environment) (session : Session.t)
  (d : database) :
  products_seq (db_after (create_admin env session d)) = products_seq d.
Proof.
  unfold App.create_admin, get_db_connection.
  destruct (db_available env); [|reflexivity].
  simpl. destruct (find _ _) as [u|] eqn:F; [reflexivity|].
  unfold insert_user. simpl.
  destruct (existsb _ _); reflexivity.
Qed.

(** Whatever the request, the sequence of [products] never goes back,
    and each row of the store it leaves either continues a row that was
    there (same id, same creation time) or has an id above every id
    handed out before: the id of a deleted product is not given to a
    later one. *)
Theorem ids_are_handed_out_once :
  forall (env : environment) (req : request) (session : Session.t)
         (d : database),
    continues d (db_after (app env req session d)).
Proof.
  intros env req session d. unfold App.app.
  destruct (target req), (method req);
    try (unfold index; destruct (Session.has_user_id session);
         apply continues_refl);
    try apply continues_refl;
    try (rewrite login_db_after; apply continues_refl);
    try (unfold login_required;
         destruct (Session.has_user_id session);
         [|apply continues_refl]).
  - rewrite dashboard_db_after. apply continues_refl.
  - apply add_product_continues.
  - apply add_product_continues.
  - apply edit_product_continues.
  - apply edit_product_continues.
  - apply delete_product_continues.
  - apply continues_same_products;
      [apply create_admin_products | apply create_admin_products_seq].
Qed.


(** ** What a request leaves alone *)

Lemma add_product_users (env : environment) (m : http_method)
  (form : form_data) (session : Session.t) (d : database) :
  users (db_after (add_product env m form session d)) = users d
  /\ users_seq (db_after (add_product env m form session d)) = users_seq d.
Proof.
  destruct (add_product_cases env m form session d)
    as [E | (x & n & x' & _ & _ & _ & _ & _ & E)]; rewrite E; now split.
Qed.

Lemma edit_product_users (env : environment) (id : Z) (m : http_method)
  (form : form_data) (session : Session.t) (d : database) :
  users (db_after (edit_product env id m form session d)) = users d
  /\ users_seq (db_after (edit_product env id m form session d))
     = users_seq d.
Proof.
  destruct (edit_product_cases env id m form session d)
    as [E | (x & n & x' & _ & _ & _ & _ & _ & _ & E)]; rewrite E; now split.
Qed.

Lemma delete_product_users (env : environment) (id : Z)
  (session : Session.t) (d : database) :
  users (db_after (delete_product env id session d)) = users d
  /\ users_seq (db_after (delete_product env id session d)) = users_seq d.
Proof.
  destruct (delete_product_cases env id session d) as [E | E]; rewrite E;
    now split.
Qed.

Lemma add_product_get_unchanged (env : environment) (form : form_data)
  (session : Session.t) (d : database) :
  db_after (add_product env GET form session d) = d.
Proof. reflexivity. Qed.

Lemma get_unchanged (env : environment) (id : Z) (form : form_data)
  (session : Session.t) (d : database) :
  db_after (edit_product env id GET form session d) = d.
Proof.
  unfold App.edit_product, get_db_connection.
  destruct (db_available env); [|reflexivity].
  unfold select_product_by_id. destruct (bind_int id); [reflexivity|].
  simpl. destruct (find _ _); reflexivity.
Qed.

(** Each request changes at most the table it is about: a POST to
    [add_product] or [edit_product] and a [delete_product] leave [users]
    and its sequence alone; [create_admin] leaves [products] and its
    sequence alone; every other request (the index, logging in and out,
    the dashboard, the forms fetched with GET, unknown URLs and refused
    methods) leaves the whole store as it was. *)
Theorem requests_keep_to_their_table :
  forall (env : environment) (req : request) (session : Session.t)
         (d : database),
    let d' := db_after (app env req session d) in
    match target req, method req with
    | url_add_product, POST | url_edit_product _, POST
    | url_delete_product _, GET =>
        users d' = users d /\ users_seq d' = users_seq d
    | url_create_admin, GET =>
        products d' = products d /\ products_seq d' = products_seq d
    | _, _ => d' = d
    end.
Proof.
  intros env req session d. unfold App.app.
  destruct (target req), (method req); simpl;
    try reflexivity;
    try (unfold index; destruct (Session.has_user_id session); reflexivity);
    try apply login_db_after;
    unfold login_required; destruct (Session.has_user_id session);
    try reflexivity; try (now split).
  - apply dashboard_db_after.
  - apply add_product_users.
  - apply get_unchanged.
  - apply edit_product_users.
  - apply delete_product_users.
  - split; [apply create_admin_products | apply create_admin_products_seq].
  - split; [apply create_admin_products | apply create_admin_products_seq].
Qed.

(** ** When the database cannot be opened *)

(** With the database out of reach no request executes a statement or
    changes the store, and no request logs anybody in. *)
Theorem no_database_no_effect :
  forall (env : environment) (req : request) (session : Session.t)
         (d : database),
    db_available env = false ->
    let o := app env req session d in
    db_after o = d /\ executed o = []
    /\ (Session.has_user_id session = false ->
        Session.has_user_id (session_after o) = false).
Proof.
  intros env req session d A.
  unfold App.app, login_required, index, logout, page_not_found,
    App.login, dashboard, App.add_product, App.edit_product, delete_product,
    App.create_admin, get_db_connection.
  rewrite A.
  destruct (target req), (method req);
    destruct (Session.has_user_id session) eqn:S; simpl;
    repeat match goal with
      | |- context [if ?b then _ else _] => destruct b
      | |- context [match errors ?v with _ => _ end] => destruct (errors v)
      | |- context [match price ?v with _ => _ end] => destruct (price v)
      | |- context [match quantity ?v with _ => _ end] =>
          destruct (quantity v)
      end; simpl; repeat split; auto; discriminate.
Qed.


(** ** Updating an existing product *)

Lemma find_updated (i j : Z) (name cat : str) (x : float) (n : Z)
  (l : list Product.row) :
  find (has_id j) (updated i name cat x n l)
  = option_map (fun p => if has_id i p then set_fields name cat x n p else p)
      (find (has_id j) l).
Proof.
  unfold updated. induction l as [|p l IH]; simpl; [reflexivity|].
  assert (K : has_id j (if has_id i p then set_fields name cat x n p else p)
              = has_id j p) by now destruct (has_id i p).
  rewrite K. destruct (has_id j p); [reflexivity | exact IH].
Qed.

(** An accepted update of a product that exists (price at least zero,
    quantity at most 2^63 - 1, id in the 64-bit range, database open) is
    stored and announced; a [get] of the id then shows the submitted
    name and category (trimmed), the converted price and quantity, and
    the id and creation time the row had; a lookup of any other id
    finds what it found before, and the table keeps its length. *)
Theorem update_then_get :
  forall (env env' : environment) (id : Z) (form : form_data)
         (session session' : Session.t) (d : database)
         (r0 : Product.row) (x : float) (n : Z),
    db_available env = true ->
    db_available env' = true ->
    fits_int64 id = true ->
    find (has_id id) (products d) = Some r0 ->
    errors (validate form) = [] ->
    float_of_str (form_get form "price" "") = Some x ->
    float_le zero x = true ->
    int int_max_str_digits (form_get form "quantity" "") = Some n ->
    n <= INT64_MAX ->
    let o := edit_product env id POST form session d in
    returned o = redirect ep_dashboard
    /\ flashed o
       = [(fstr ["Product "; dquote;
                 strip (form_get form "product_name" ""); dquote;
                 " updated successfully!"], "success")]
    /\ (exists r : Product.row,
          returned (get env' id session' (db_after o)) = edit_product_html r
          /\ Product.id r = Product.id r0
          /\ Product.created_at r = Product.created_at r0
          /\ Product.product_name r = strip (form_get form "product_name" "")
          /\ Product.category r = strip (form_get form "category" "")
          /\ bind_real x = Some (Product.price r)
          /\ Product.quantity r = n)
    /\ (forall j : Z,
          j <> id ->
          find (has_id j) (products (db_after o))
          = find (has_id j) (products d))
    /\ List.length (products (db_after o)) = List.length (products d).
Proof.
  intros env env' id form session session' d r0 x n A A' Fi F0 Er P G Q B o.
  destruct (validate_fields form) as (Nf & Cf & Pf & Qf).
  rewrite P in Pf. rewrite Q in Qf.
  destruct (accepted_values form x n Er Pf Qf) as [L Gn].
  pose proof (fits_int64_range n Gn B) as Fn.
  destruct (bind_real_some x G) as (x' & R).
  pose proof (edit_product_accepted env id form session d x x' n
                A Er Pf Qf Fn Fi R) as E.
  fold o in E. rewrite E, Nf, Cf. simpl.
  split; [reflexivity|]. split; [reflexivity|]. split; [|split].
  - exists (set_fields (strip (form_get form "product_name" ""))
              (strip (form_get form "category" "")) x' n r0).
    split; [|now repeat split].
    rewrite (get_present env' id session' _
               (set_fields (strip (form_get form "product_name" ""))
                  (strip (form_get form "category" "")) x' n r0) A' Fi);
      [reflexivity|].
    simpl. rewrite find_updated, F0. simpl.
    apply find_some in F0. destruct F0 as [_ H0]. now rewrite H0.
  - intros j Hj. rewrite find_updated.
    destruct (find (has_id j) (products d)) as [p|] eqn:Fj; [|reflexivity].
    simpl. apply find_some in Fj. destruct Fj as [_ Hp].
    unfold has_id in *. apply Z.eqb_eq in Hp.
    destruct (Product.id p =? id) eqn:Ei; [|reflexivity].
    apply Z.eqb_eq in Ei. congruence.
  - unfold updated. apply length_map.
Qed.

Lemma set_fields_twice (name cat : str) (x : float) (n : Z)
  (p : Product.row) :
  set_fields name cat x n (set_fields name cat x n p)
  = set_fields name cat x n p.
Proof. reflexivity. Qed.

Lemma updated_twice (i : Z) (name cat : str) (x : float) (n : Z)
  (l : list Product.row) :
  updated i name cat x n (updated i name cat x n l) = updated i name cat x n l.
Proof.
  unfold updated. rewrite map_map. apply map_ext. intros p.
  destruct (has_id i p) eqn:E; [|now rewrite E].
  assert (K : has_id i (set_fields name cat x n p) = true) by exact E.
  now rewrite K.
Qed.

(** Submitting the same update twice is the same as submitting it once:
    with the database open for the first submission, the second leaves
    the store exactly as the first left it. *)
Theorem update_twice_same_store :
  forall (env env' : environment) (id : Z) (form : form_data)
         (session session' : Session.t) (d : database),
    db_available env = true ->
    let d1 := db_after (edit_product env id POST form session d) in
    db_after (edit_product env' id POST form session' d1) = d1.
Proof.
  intros env env' id form session session' d A d1.
  destruct (edit_product_cases env' id POST form session' d1)
    as [E | (x & n & x' & Er & P & Q & R & F & Fi & E)]; [exact E|].
  rewrite E.
  assert (E1 : d1 = set_products
                      (updated id (product_name (validate form))
                         (category (validate form)) x' n (products d))
                      (products_seq d) d).
  { unfold d1.
    now rewrite (edit_product_accepted env id form session d x x' n
                   A Er P Q F Fi R). }
  fold (updated id (product_name (validate form))
          (category (validate form)) x' n (products d1)).
  rewrite E1. simpl. now rewrite updated_twice.
Qed.

(** ** Deleting twice *)

(** Deleting the same id a second time (id in the 64-bit range,
    database open both times) finds nothing: it is answered with
    "Product not found." and leaves the store as the first deletion left
    it. *)
Theorem delete_twice_not_found :
  forall (env env' : environment) (id : Z) (session session' : Session.t)
         (d : database),
    db_available env = true ->
    db_available env' = true ->
    fits_int64 id = true ->
    let d1 := db_after (delete_product env id session d) in
    delete_product env' id session' d1
    = finish (redirect ep_dashboard) [danger "Product not found."] session'
        d1 [SelectProductNameById id].
Proof.
  intros env env' id session session' d A A' F d1.
  assert (N : find (has_id id) (products d1) = None).
  { unfold d1, delete_product, get_db_connection. rewrite A.
    unfold select_product_name_by_id, delete_product_by_id.
    rewrite (bind_int_fits id F). simpl.
    destruct (find (has_id id) (products d)) as [p|] eqn:E; simpl.
    - apply find_filter_negb.
    - exact E. }
  unfold delete_product, get_db_connection. rewrite A'.
  unfold select_product_name_by_id. rewrite (bind_int_fits id F). simpl.
  now rewrite N.
Qed.


(** ** Who gets a session *)

(** [login] never grants a session on its own authority: when a call
    turns an anonymous session into one with a user id, the request was
    a POST, the database was open, [users] holds a row whose username is
    the trimmed submitted username and whose stored hash the hasher
    accepts for the submitted password, and the session is exactly that
    row's id and username, marked permanent. *)
Theorem login_grants_only_stored_users :
  forall (env : environment) (m : http_method) (form : form_data)
         (session : Session.t) (d : database),
    Session.has_user_id session = false ->
    Session.has_user_id (session_after (login env m form session d)) = true ->
    exists u : User.row,
      In u (users d)
      /\ User.username u = strip (form_get form "username" "")
      /\ check_password_hash (User.password u) (form_get form "password" "")
         = true
      /\ session_after (login env m form session d)
         = {| Session.permanent := true;
              Session.user_id := Some (User.id u);
              Session.username := Some (User.username u) |}
      /\ m = POST /\ db_available env = true.
Proof.
  intros env m form session d S. unfold App.login, get_db_connection.
  rewrite S. destruct m; simpl; [congruence|].
  destruct (_ || _); simpl; [congruence|].
  destruct (db_available env); simpl; [|congruence].
  destruct (find _ _) as [u|] eqn:F; simpl; [|congruence].
  destruct (check_password_hash _ _) eqn:C; simpl; [|congruence].
  intros _. exists u. apply find_some in F. destruct F as [Hin Hu].
  unfold has_username in Hu. apply String.eqb_eq in Hu.
  now repeat split.
Qed.

Lemma find_snoc_absent {A} (f : A -> bool) (l : list A) (a : A) :
  existsb f l = false -> f a = true -> find f (l ++ [a]) = Some a.
Proof.
  induction l as [|b l IH]; simpl; intros E Ha.
  - now rewrite Ha.
  - destruct (f b); [discriminate|]. now apply IH.
Qed.

(** The seeded account works: after [init_db] on a store without an
    administrator, and with a hasher that accepts the hash it made of
    "admin123", an anonymous POST of the username "admin" (surrounding
    white space allowed) and the password "admin123" is answered with
    the redirect to the dashboard, the welcome message and a session for
    the new row; the store is not changed by logging in. *)
Theorem seeded_admin_can_log_in :
  forall (env0 env : environment) (form : form_data) (session : Session.t)
         (d : database),
    existsb (has_username "admin") (users d) = false ->
    check_password_hash
      (generate_password_hash (salt env0) "admin123") "admin123" = true ->
    Session.has_user_id session = false ->
    db_available env = true ->
    strip (form_get form "username" "") = "admin" ->
    form_get form "password" "" = "admin123" ->
    let d' := init_db env0 d in
    login env POST form session d'
    = finish (redirect ep_dashboard) [("Welcome back, admin!", "success")]
        {| Session.permanent := true;
           Session.user_id :=
             Some (next_rowid (users_seq d) (map User.id (users d)));
           Session.username := Some "admin" |}
        d' [SelectUserByUsername "admin"].
Proof.
  intros env0 env form session d E C S A N P d'.
  pose proof (login_lookup env form session d' S A) as L.
  cbv zeta in L. rewrite N, P in L. specialize (L eq_refl eq_refl).
  rewrite L. unfold d'. rewrite init_db_users, E.
  rewrite find_snoc_absent; [|exact E|reflexivity]. simpl. now rewrite C.
Qed.

(** ** Logging out *)

(** Logging out empties the session, whatever it held, and touches
    nothing else; a gated request made with the session it leaves is
    stopped at the gate, without a statement being executed. *)
Theorem logout_ends_access :
  forall (env env' : environment) (req : request) (session : Session.t)
         (d : database),
    gated (target req) = true ->
    let o := app env logout_request session d in
    let o' := app env' req (session_after o) (db_after o) in
    session_after o = Session.empty
    /\ db_after o = d
    /\ db_after o' = d /\ executed o' = []
    /\ session_after o' = Session.empty
    /\ (returned o' = redirect ep_login \/ returned o' = method_not_allowed).
Proof.
  intros env env' req session d G. unfold App.app. simpl.
  destruct (target req); try discriminate G; destruct (method req);
    simpl; repeat split; auto.
Qed.


(** ** The dashboard page is consistent with itself *)

Lemma sum_int64_some (acc s : Z) (l : list Z) :
  sum_int64 acc l = Some s -> s = acc + total l.
Proof.
  revert acc. induction l as [|q l IH]; simpl; intros acc H.
  - inversion H. lia.
  - destruct (fits_int64 (acc + q)); [|discriminate].
    apply IH in H. lia.
Qed.

Lemma sum_coalesce (l : list Z) (s : option Z) :
  sum l = inr s -> coalesce s 0 = total l.
Proof.
  destruct l as [|q l]; unfold sum.
  - intros H. now inversion H.
  - destruct (sum_int64 0 (q :: l)) as [t|] eqn:E; [|discriminate].
    intros H. inversion H. apply sum_int64_some in E.
    cbn [coalesce]. lia.
Qed.

Lemma total_perm (l l' : list Z) : Permutation l l' -> total l = total l'.
Proof.
  induction 1; simpl; lia.
Qed.

Lemma filter_length_perm {A} (f : A -> bool) (l l' : list A) :
  Permutation l l' ->
  List.length (filter f l) = List.length (filter f l').
Proof.
  induction 1 as [| a l l' P IH | a b l | l l' l'' P1 IH1 P2 IH2]; simpl.
  - reflexivity.
  - destruct (f a); simpl; now rewrite IH.
  - destruct (f a), (f b); reflexivity.
  - now rewrite IH1.
Qed.

Lemma flagged_marked (l : list Product.row) :
  filter is_low_stock (map mark_low_stock l)
  = map mark_low_stock (filter (fun p => Product.quantity p <? 10) l).
Proof.
  induction l as [|p l IH]; simpl; [reflexivity|].
  unfold LOW_STOCK_THRESHOLD.
  destruct (Product.quantity p <? 10); simpl; now rewrite IH.
Qed.

(** Whenever the dashboard shows statistics, they agree with the list
    shown beside them: [total_products] is the number of listed
    products, [total_stock] the sum of their quantities,
    [low_stock_count] the number of them flagged as low in stock, and
    the threshold handed to the template is 10. *)
Theorem dashboard_page_consistent :
  forall (env : environment) (session : Session.t) (d : database)
         (listed : list product_view) (st : stats) (threshold : option Z),
    returned (dashboard env session d)
    = dashboard_html listed (Some st) threshold ->
    total_products st = Z.of_nat (List.length listed)
    /\ total_stock st
       = total (map (fun v => Product.quantity (row v)) listed)
    /\ low_stock_count st = flagged listed
    /\ threshold = Some 10
    /\ flashed (dashboard env session d) = [].
Proof.
  intros env session d listed st threshold H.
  destruct (db_available env) eqn:A.
  2:{ unfold dashboard, get_db_connection in H. rewrite A in H.
      discriminate H. }
  rewrite (dashboard_open env session d A) in *.
  destruct (sum (map Product.quantity (products d))) as [e|s] eqn:Es;
    simpl in H; [discriminate|].
  inversion H; subst; clear H. simpl.
  pose proof (order_by_created_at_desc_perm (products d)) as P.
  split; [|split; [|split; [|now split]]].
  - unfold count. rewrite length_map.
    now rewrite (Permutation_length P).
  - rewrite (sum_coalesce _ _ Es), map_map. simpl.
    apply total_perm. now apply Permutation_map.
  - unfold flagged, count. rewrite flagged_marked, length_map.
    now rewrite (filter_length_perm _ _ _ P).
Qed.

(** ** What an insertion does to the statistics *)

Lemma total_app (l l' : list Z) : total (l ++ l') = total l + total l'.
Proof. induction l as [|q l IH]; simpl; lia. Qed.

Lemma total_nonneg (l : list Z) :
  Forall (fun q => 0 <= q) l -> 0 <= total l.
Proof. induction 1; simpl; lia. Qed.

(** After an accepted insertion the dashboard counts one product more
    and the submitted quantity more in stock, and one more product low
    in stock exactly when the submitted quantity is below 10 (stored
    quantities at least zero, the new total at most 2^63 - 1, database
    open for both requests). *)
Theorem insert_moves_statistics :
  forall (env env' : environment) (form : form_data)
         (session session' : Session.t) (d : database) (x : float) (n : Z),
    db_available env = true ->
    db_available env' = true ->
    errors (validate form) = [] ->
    float_of_str (form_get form "price" "") = Some x ->
    float_le zero x = true ->
    int int_max_str_digits (form_get form "quantity" "") = Some n ->
    Forall (fun p => 0 <= Product.quantity p) (products d) ->
    total (map Product.quantity (products d)) + n <= INT64_MAX ->
    page_stats
      (returned
         (dashboard env' session'
            (db_after (add_product env POST form session d))))
    = Some
        {| total_products := total_products (stats_of (products d)) + 1;
           total_stock := total_stock (stats_of (products d)) + n;
           low_stock_count :=
             low_stock_count (stats_of (products d))
             + (if n <? 10 then 1 else 0) |}.
Proof.
  intros env env' form session session' d x n A A' Er P G Q F B.
  destruct (validate_fields form) as (_ & _ & Pf & Qf).
  rewrite P in Pf. rewrite Q in Qf.
  destruct (accepted_values form x n Er Pf Qf) as [_ Gn].
  assert (F' : Forall (fun q => 0 <= q) (map Product.quantity (products d)))
    by now apply Forall_map.
  pose proof (total_nonneg _ F') as T.
  assert (Fn : fits_int64 n = true) by (apply fits_int64_range; lia).
  destruct (bind_real_some x G) as (x' & R).
  rewrite (add_product_accepted env form session d x x' n A Er Pf Qf Fn R).
  simpl. rewrite (dashboard_open env' session' _ A'). simpl.
  rewrite map_app. simpl.
  assert (F2 : Forall (fun q => 0 <= q)
                 (map Product.quantity (products d) ++ [n])).
  { apply Forall_app. split; [exact F' | now repeat constructor]. }
  assert (B2 : total (map Product.quantity (products d) ++ [n])
               <= INT64_MAX) by (rewrite total_app; simpl; lia).
  destruct (sum_total _ F2 B2) as (s & Es & Ec).
  rewrite Es. simpl. rewrite Ec, total_app. simpl.
  unfold count. rewrite filter_app, !length_app. simpl.
  f_equal. f_equal; [lia | lia |].
  destruct (n <? 10); simpl; lia.
Qed.


(** ** What the answer of [add_product] says about the store *)

Lemma danger_category (errs : list str) (f : flash) :
  In f (map danger errs) -> snd f = "danger".
Proof.
  intros H. apply in_map_iff in H. now destruct H as (e & <- & _).
Qed.

(** The answer of [add_product] tells what happened to the store: a
    redirect to the dashboard means that exactly one row was appended,
    under the name the success message quotes; any other answer means
    that the store is as it was, and every message flashed with it is a
    "danger" message. *)
Theorem add_product_answer_matches_store :
  forall (env : environment) (m : http_method) (form : form_data)
         (session : Session.t) (d : database),
    let o := add_product env m form session d in
    (returned o = redirect ep_dashboard ->
     exists r : Product.row,
       products (db_after o) = products d ++ [r]
       /\ flashed o
          = [(fstr ["Product "; dquote; Product.product_name r; dquote;
                    " added successfully!"], "success")])
    /\ (returned o <> redirect ep_dashboard ->
        db_after o = d
        /\ forall f : flash, In f (flashed o) -> snd f = "danger").
Proof.
  intros env m form session d. unfold App.add_product.
  destruct m; simpl.
  { split; [discriminate|]. intros _. split; [reflexivity|]. intros f []. }
  destruct (errors (validate form)) as [|e errs].
  2:{ simpl. split; [discriminate|]. intros _. split; [reflexivity|].
      apply (danger_category (e :: errs)). }
  destruct (price (validate form)) as [x|].
  2:{ simpl. split; [discriminate|]. intros _. split; [reflexivity|].
      intros f []. }
  destruct (quantity (validate form)) as [n|].
  2:{ simpl. split; [discriminate|]. intros _. split; [reflexivity|].
      intros f []. }
  unfold get_db_connection. destruct (db_available env); simpl.
  2:{ split; [discriminate|]. intros _. split; [reflexivity|].
      intros f [<- | []]. reflexivity. }
  unfold insert_product.
  destruct (bind_int n) as [e|q]; simpl.
  { split; [discriminate|]. intros _. split; [reflexivity|].
    intros f [<- | []]. reflexivity. }
  destruct (bind_real x) as [x'|]; simpl.
  - split; [|congruence]. intros _. eexists. split; reflexivity.
  - split; [discriminate|]. intros _. split; [reflexivity|].
    intros f [<- | []]. reflexivity.
Qed.

(** ** A refused update *)

(** A POST to [edit_product] that breaks a validation rule (id in the
    64-bit range, database open) changes nothing and runs one SELECT to
    show the form again.  When the row exists, the form shows the row as
    stored, with the validation messages; when it does not, reading it
    back fails, and the view flashes the validation messages followed by
    "An error occurred: 'NoneType' object is not iterable" and redirects
    to the dashboard. *)
Theorem refused_update_rereads_the_row :
  forall (env : environment) (id : Z) (form : form_data)
         (session : Session.t) (d : database),
    db_available env = true ->
    fits_int64 id = true ->
    errors (validate form) <> [] ->
    edit_product env id POST form session d
    = match find (has_id id) (products d) with
      | Some r =>
          finish (edit_product_html r) (map danger (errors (validate form)))
            session d [SelectProductById id]
      | None =>
          finish (redirect ep_dashboard)
            (map danger (errors (validate form))
             ++ [danger (fstr ["An error occurred: ";
                               "'NoneType' object is not iterable"])])
            session d [SelectProductById id]
      end.
Proof.
  intros env id form session d A F H.
  unfold App.edit_product, get_db_connection. rewrite A.
  destruct (errors (validate form)) as [|e errs]; [congruence|].
  unfold select_product_by_id. rewrite (bind_int_fits id F). simpl.
  destruct (find (has_id id) (products d)); reflexivity.
Qed.


(** ** Names made of white space *)

Lemma lstrip_chars_nil (l : list ascii) :
  lstrip_chars l = [] <-> forallb isspace l = true.
Proof.
  induction l as [|c l IH]; simpl; [tauto|].
  destruct (isspace c); simpl; [exact IH|].
  split; discriminate.
Qed.

(** [s.strip()] is empty exactly when [s] holds nothing but white
    space. *)
Lemma strip_empty (s : str) :
  strip s = "" <-> forallb isspace (list_ascii_of_string s) = true.
Proof.
  rewrite <- lstrip_chars_nil. unfold strip. split.
  - intros H.
    apply (f_equal list_ascii_of_string) in H.
    rewrite list_ascii_of_string_of_list_ascii in H. simpl in H.
    destruct (lstrip_chars_head (list_ascii_of_string s))
      as [E | (c & t & E & Hc)]; [exact E|].
    rewrite E, (rstrip_chars_cons _ _ Hc) in H. discriminate H.
  - intros ->. reflexivity.
Qed.

(** On a POST to [add_product], the message of a rule is flashed
    exactly when validation collected it. *)
Lemma add_product_flashes_message (env : environment) (form : form_data)
  (session : Session.t) (d : database) (v : violation) :
  In (danger (message v)) (flashed (add_product env POST form session d))
  <-> In (message v) (errors (validate form)).
Proof.
  destruct (errors (validate form)) as [|m ms] eqn:Er.
  - split; [|intros []].
    unfold App.add_product. rewrite Er.
    destruct (price (validate form)) as [x|]; [|intros []].
    destruct (quantity (validate form)) as [n|]; [|intros []].
    unfold get_db_connection. destruct (db_available env); simpl.
    2:{ intros [H | []]. destruct v; discriminate H. }
    unfold insert_product.
    destruct (bind_int n) as [e|q]; simpl.
    { intros [H | []]. destruct v; discriminate H. }
    destruct (bind_real x) as [x'|]; simpl;
      intros [H | []]; destruct v; discriminate H.
  - rewrite add_product_rejected by (rewrite Er; discriminate).
    rewrite Er.
    change (flashed (finish add_product_html (map danger (m :: ms))
                       session d []))
      with (map danger (m :: ms)).
    split.
    + intros H. apply in_map_iff in H. destruct H as (msg & E & H).
      inversion E as [E']. now subst.
    + intros H. now apply in_map.
Qed.

(** Validation collects "Product name is required." exactly when the
    trimmed name is empty, and "Category is required." exactly when the
    trimmed category is. *)
Lemma validate_requires_name (form : form_data) :
  In (message EmptyName) (errors (validate form))
  <-> strip (form_get form "product_name" "") = "".
Proof.
  unfold App.validate. rewrite !truthy_eqb. simpl errors.
  destruct (String.eqb_spec (strip (form_get form "product_name" "")) "")
    as [E | E];
    destruct (String.eqb (strip (form_get form "category" "")) "");
    destruct (float_of_str (form_get form "price" "")) as [x|];
    try destruct (float_lt x zero);
    destruct (int int_max_str_digits (form_get form "quantity" ""))
      as [n|];
    try destruct (n <? 0); simpl; intuition (discriminate || congruence).
Qed.

Lemma validate_requires_category (form : form_data) :
  In (message EmptyCategory) (errors (validate form))
  <-> strip (form_get form "category" "") = "".
Proof.
  unfold App.validate. rewrite !truthy_eqb. simpl errors.
  destruct (String.eqb (strip (form_get form "product_name" "")) "");
    destruct (String.eqb_spec (strip (form_get form "category" "")) "")
      as [E | E];
    destruct (float_of_str (form_get form "price" "")) as [x|];
    try destruct (float_lt x zero);
    destruct (int int_max_str_digits (form_get form "quantity" ""))
      as [n|];
    try destruct (n <? 0); simpl; intuition (discriminate || congruence).
Qed.

(** A name, or a category, that holds nothing but white space (the
    empty one included) is refused: on a POST to [add_product],
    "Product name is required." is flashed exactly when every character
    of the submitted name is white space, and "Category is required."
    exactly when every character of the submitted category is. *)
Theorem blank_names_are_refused :
  forall (env : environment) (form : form_data) (session : Session.t)
         (d : database),
    let o := add_product env POST form session d in
    (In (danger "Product name is required.") (flashed o)
     <-> forallb isspace
           (list_ascii_of_string (form_get form "product_name" "")) = true)
    /\ (In (danger "Category is required.") (flashed o)
        <-> forallb isspace
              (list_ascii_of_string (form_get form "category" "")) = true).
Proof.
  intros env form session d o. unfold o. split.
  - rewrite <- strip_empty, <- validate_requires_name.
    apply (add_product_flashes_message env form session d EmptyName).
  - rewrite <- strip_empty, <- validate_requires_category.
    apply (add_product_flashes_message env form session d EmptyCategory).
Qed.


(** ** Accepted by validation, refused by the database *)

(** Validation lets through two kinds of submission that the database
    cannot store: a price that is not a number ("nan" converts, and is
    not below zero) and a quantity above 2^63 - 1.  With the database
    open, [add_product] then shows the form again with the database's
    error, and the store is as it was; the quantity is checked first. *)
Theorem unstorable_submission_is_reported :
  forall (env : environment) (form : form_data) (session : Session.t)
         (d : database) (x : float) (n : Z),
    db_available env = true ->
    errors (validate form) = [] ->
    float_of_str (form_get form "price" "") = Some x ->
    int int_max_str_digits (form_get form "quantity" "") = Some n ->
    x = S754_nan \/ INT64_MAX < n ->
    add_product env POST form session d
    = finish add_product_html
        [danger
           (fstr ["An error occurred: ";
                  if INT64_MAX <? n
                  then "Python int too large to convert to SQLite INTEGER"
                  else "NOT NULL constraint failed: products.price"])]
        session d
        [InsertProduct (strip (form_get form "product_name" ""))
           (strip (form_get form "category" "")) x n].
Proof.
  intros env form session d x n A Er P Q H.
  destruct (validate_fields form) as (Nf & Cf & Pf & Qf).
  rewrite P in Pf. rewrite Q in Qf.
  destruct (accepted_values form x n Er Pf Qf) as [_ Gn].
  unfold App.add_product, get_db_connection. rewrite Er, Pf, Qf, A, Nf, Cf.
  unfold insert_product, bind_int.
  destruct (INT64_MAX <? n) eqn:L.
  - apply Z.ltb_lt in L.
    assert (F : fits_int64 n = false).
    { unfold fits_int64. apply andb_false_intro2. apply Z.leb_gt. exact L. }
    rewrite F. reflexivity.
  - apply Z.ltb_ge in L. rewrite (fits_int64_range n Gn L).
    destruct H as [-> | H]; [reflexivity | lia].
Qed.

(** ** What the stored rows look like *)

Lemma bind_real_fixed (x x' : float) :
  bind_real x = Some x' -> bind_real x' = Some x'.
Proof.
  destruct x as [s | s | | s m e]; simpl; intros H; inversion H;
    reflexivity.
Qed.

Lemma truthy_nonempty (s : str) : truthy s = true -> s <> "".
Proof. destruct s; [discriminate|]. intros _. discriminate. Qed.

(** The row built from an accepted submission is clean. *)
Lemma accepted_fields_clean (form : form_data) (x x' : float) (n : Z)
  (i t : Z) :
  errors (validate form) = [] ->
  bind_real x = Some x' -> fits_int64 n = true ->
  clean {| Product.id := i;
           Product.product_name := product_name (validate form);
           Product.category := category (validate form);
           Product.price := x'; Product.quantity := n;
           Product.created_at := t |}.
Proof.
  intros Er R F.
  destruct (validate_accepts form Er) as (_ & _ & _ & _ & _ & _ & Tn & Tc).
  destruct (validate_fields form) as (Nf & Cf & _).
  unfold clean. simpl. repeat split.
  - rewrite Nf. apply strip_idempotent.
  - now apply truthy_nonempty.
  - rewrite Cf. apply strip_idempotent.
  - now apply truthy_nonempty.
  - now apply (bind_real_fixed x).
  - exact F.
Qed.

Lemma add_product_clean (env : environment) (m : http_method)
  (form : form_data) (session : Session.t) (d : database) :
  Forall clean (products d) ->
  Forall clean (products (db_after (add_product env m form session d))).
Proof.
  intros H.
  destruct (add_product_cases env m form session d)
    as [E | (x & n & x' & Er & P & Q & R & F & E)]; rewrite E; [exact H|].
  simpl. apply Forall_app. split; [exact H|].
  constructor; [|constructor].
  now apply (accepted_fields_clean form x).
Qed.

Lemma edit_product_clean (env : environment) (id : Z) (m : http_method)
  (form : form_data) (session : Session.t) (d : database) :
  Forall clean (products d) ->
  Forall clean (products (db_after (edit_product env id m form session d))).
Proof.
  intros H.
  destruct (edit_product_cases env id m form session d)
    as [E | (x & n & x' & Er & P & Q & R & F & Fi & E)]; rewrite E; [exact H|].
  simpl. apply Forall_map.
  eapply Forall_impl; [|exact H].
  intros p Hp. destruct (has_id id p); [|exact Hp].
  now apply (accepted_fields_clean form x).
Qed.

Lemma delete_product_clean (env : environment) (id : Z)
  (session : Session.t) (d : database) :
  Forall clean (products d) ->
  Forall clean (products (db_after (delete_product env id session d))).
Proof.
  intros H.
  destruct (delete_product_cases env id session d) as [E | E]; rewrite E;
    [exact H|].
  simpl. apply Forall_forall. intros p Hp.
  apply filter_In in Hp. destruct Hp as [Hp _].
  revert p Hp. now apply Forall_forall.
Qed.

Lemma app_clean (env : environment) (req : request) (session : Session.t)
  (d : database) :
  Forall clean (products d) ->
  Forall clean (products (db_after (app env req session d))).
Proof.
  intros H. unfold App.app.
  destruct (target req), (method req);
    try (unfold index; destruct (Session.has_user_id session); exact H);
    try exact H;
    try (rewrite login_db_after; exact H);
    try (unfold login_required;
         destruct (Session.has_user_id session); [|exact H]).
  - now rewrite dashboard_db_after.
  - now apply add_product_clean.
  - now apply add_product_clean.
  - now apply edit_product_clean.
  - now apply edit_product_clean.
  - now apply delete_product_clean.
  - now rewrite create_admin_products.
Qed.

(** In every store that can arise, each product has a name and a
    category that are non-empty and carry no surrounding white space, a
    price that is a number (never NaN, never the negative zero) and a
    quantity within the 64-bit range. *)
Theorem stored_rows_are_clean :
  forall d : database, reachable d -> Forall clean (products d).
Proof.
  induction 1 as [| env d R IH | env req session d R IH].
  - constructor.
  - rewrite init_db_products. exact IH.
  - now apply app_clean.
Qed.


(** ** The answer of [create_admin] *)

Lemma find_existsb {A} (f : A -> bool) (l : list A) :
  find f l = None <-> existsb f l = false.
Proof.
  induction l as [|a l IH]; simpl; [tauto|].
  destruct (f a); simpl; [split; discriminate | exact IH].
Qed.

(** [create_admin] answers anybody, logged in or not, without flashing
    anything or touching the session, in one of three ways that say
    what it did: "Database connection error." when the database cannot
    be opened, and nothing changes; "Admin user already exists. ..."
    when a row named "admin" is there, and nothing changes; "Admin user
    created successfully! ..." otherwise, and then the row for "admin",
    with the hash of "admin123", has been appended to [users].  The
    INSERT never runs into the UNIQUE constraint. *)
Theorem create_admin_answer_matches_store :
  forall (env : environment) (session : Session.t) (d : database),
    let o := create_admin env session d in
    flashed o = [] /\ session_after o = session
    /\ ((db_available env = false
         /\ returned o = text "Database connection error."
         /\ db_after o = d /\ executed o = [])
        \/ (db_available env = true
            /\ existsb (has_username "admin") (users d) = true
            /\ returned o
               = text (fstr ["Admin user already exists. ";
                             "Login with username: admin, password: admin123"])
            /\ db_after o = d /\ executed o = [SelectAdmin])
        \/ (db_available env = true
            /\ existsb (has_username "admin") (users d) = false
            /\ returned o
               = text (fstr ["Admin user created successfully! ";
                             "Username: admin, Password: admin123"])
            /\ users (db_after o)
               = users d
                 ++ [{| User.id :=
                          next_rowid (users_seq d) (map User.id (users d));
                        User.username := "admin";
                        User.password :=
                          generate_password_hash (salt env) "admin123" |}]
            /\ products (db_after o) = products d)).
Proof.
  intros env session d. unfold App.create_admin, get_db_connection.
  destruct (db_available env); simpl.
  2:{ split; [reflexivity|]. split; [reflexivity|]. left. now repeat split. }
  destruct (find (has_username "admin") (users d)) as [u|] eqn:F.
  - assert (K : existsb (has_username "admin") (users d) = true).
    { destruct (existsb (has_username "admin") (users d)) eqn:E;
        [reflexivity|].
      apply find_existsb in E. congruence. }
    simpl. split; [reflexivity|]. split; [reflexivity|].
    right. left. now repeat split.
  - pose proof (proj1 (find_existsb _ _) F) as K.
    unfold insert_user. simpl. rewrite K. simpl.
    split; [reflexivity|]. split; [reflexivity|].
    right. right. now repeat split.
Qed.

End Properties.

(** * Worked instances

    The statements above, run on the stand-in platform of [Example]. *)

Lemma fresh_reachable :
  reachable Example.generate_password_hash Example.check_password_hash
    Example.int_max_str_digits Example.fresh.
Proof. apply reachable_init, reachable_empty. Defined.

Lemma stocked_reachable :
  reachable Example.generate_password_hash Example.check_password_hash
    Example.int_max_str_digits Example.stocked.
Proof.
  exact (reachable_request _ _ _ (Example.env 2)
           (Example.add_request "Gauze" "Pharmacy" "1.20" "50")
           Example.staff _
           (reachable_request _ _ _ (Example.env 1)
              (Example.add_request " Aspirin " "Pharmacy" "4.50" "5")
              Example.staff _ fresh_reachable)).
Defined.

Lemma overstocked_reachable :
  reachable Example.generate_password_hash Example.check_password_hash
    Example.int_max_str_digits Example.overstocked.
Proof.
  exact (reachable_request _ _ _ (Example.env 2)
           (Example.add_request "Gauze" "Pharmacy" "1.20"
              "9223372036854775807")
           Example.staff _
           (reachable_request _ _ _ (Example.env 1)
              (Example.add_request "Aspirin" "Pharmacy" "4.50"
                 "9223372036854775807")
              Example.staff _ fresh_reachable)).
Defined.


(** The two answers at "nosuchuser" and at "admin" with a wrong
    password. *)
Lemma login_answers_alike_at_admin :
  observable
    (login Example.check_password_hash (Example.env 0) POST
       (Example.login_form "nosuchuser" "x") Session.empty Example.fresh)
  = observable
      (login Example.check_password_hash (Example.env 0) POST
         (Example.login_form "admin" "wrongpass") Session.empty Example.fresh).
Proof.
  apply (login_answers_alike Example.check_password_hash
           (Example.env 0) (Example.login_form "nosuchuser" "x")
           (Example.login_form "admin" "wrongpass") Session.empty
           Example.fresh
           {| User.id := 1; User.username := "admin";
              User.password := "plain$c2FsdA$admin123" |});
    reflexivity.
Defined.

(** C10 at the username " admin " with the right password. *)
Lemma login_trims_username_only_witness :
  login Example.check_password_hash (Example.env 0) POST
    (Example.login_form " admin " "admin123") Session.empty Example.fresh
  = login Example.check_password_hash (Example.env 0) POST
      (Example.login_form "admin" "admin123") Session.empty Example.fresh.
Proof.
  apply (login_trims_username_only Example.check_password_hash
           (Example.env 0) (Example.login_form " admin " "admin123")
           Session.empty Example.fresh).
  reflexivity.
Defined.

(** C6 at the empty file, initialised twice. *)
Lemma default_admin_seeded_once_witness :
  count_username "admin"
    (users
       (init_db Example.generate_password_hash (Example.env 1)
          (init_db Example.generate_password_hash (Example.env 0)
             Sqlite.empty)))
  = 1%nat.
Proof.
  apply (default_admin_seeded_once Example.generate_password_hash
           Sqlite.empty (Example.env 0) [Example.env 1]).
  constructor.
Defined.

(** C5 at the store holding "Aspirin" (5 in stock) and "Gauze" (50). *)
Lemma dashboard_statistics_witness :
  page_stats
    (returned (dashboard (Example.env 3) Example.staff Example.stocked))
  = Some {| total_products := 2; total_stock := 55; low_stock_count := 1 |}.
Proof.
  refine (proj1 (proj1 (dashboard_statistics (Example.env 3) Example.staff
                          Example.stocked _ _ _))).
  - reflexivity.
  - vm_compute. repeat constructor; discriminate.
  - vm_compute. discriminate.
Defined.

(** C5 (as stated) fails on a store that two insertions reach: with two
    rows of quantity 2^63 - 1 the total does not fit a 64-bit integer,
    the statistics query raises, and the page shows neither statistics
    nor products. *)
Lemma stats_overflow_counterexample :
  reachable Example.generate_password_hash Example.check_password_hash
    Example.int_max_str_digits Example.overstocked
  /\ dashboard (Example.env 3) Example.staff Example.overstocked
     = finish (dashboard_html [] None None)
         [danger "An error occurred: integer overflow"] Example.staff
         Example.overstocked [SelectProductsNewestFirst; SelectCountAndStock]
  /\ ~ stats_as_specified (Example.env 3) Example.staff Example.overstocked.
Proof.
  split; [exact overstocked_reachable|].
  split; [vm_compute; reflexivity|].
  intros [H _]. vm_compute in H. discriminate H.
Qed.

(** C7 at the submission (" Aspirin ", "Pharmacy", "4.50", "5"). *)
Lemma insert_then_get_witness :
  returned (Example.add 7 " Aspirin " "Pharmacy" "4.50" "5" Example.fresh)
  = redirect ep_dashboard
  /\ exists r : Product.row,
       products
         (db_after (Example.add 7 " Aspirin " "Pharmacy" "4.50" "5"
                      Example.fresh))
       = products Example.fresh ++ [r]
       /\ returned
            (get (Example.env 8) 1 Example.staff
               (db_after (Example.add 7 " Aspirin " "Pharmacy" "4.50" "5"
                            Example.fresh)))
          = edit_product_html r
       /\ Product.id r = 1
       /\ Product.product_name r = "Aspirin"
       /\ Product.category r = "Pharmacy"
       /\ bind_real (S754_finite false 5066549580791808 (-50))
          = Some (Product.price r)
       /\ float_eq (Product.price r)
            (S754_finite false 5066549580791808 (-50)) = true
       /\ Product.quantity r = 5
       /\ Product.created_at r = 7.
Proof.
  refine (insert_then_get Example.int_max_str_digits (Example.env 7)
            (Example.env 8)
            (Example.product_form " Aspirin " "Pharmacy" "4.50" "5")
            Example.staff Example.staff Example.fresh
            (S754_finite false 5066549580791808 (-50)) 5 _ _ _ _ _ _ _ _);
    try reflexivity; vm_compute; discriminate.
Defined.

(** C7 (as stated) fails on two submissions that pass validation: the
    name " Aspirin " is stored as "Aspirin", not as submitted; and the
    quantity 2^63 is refused by the database, so nothing is stored. *)
Lemma insert_get_counterexample :
  ~ insert_get_as_specified Example.int_max_str_digits (Example.env 7)
      (Example.product_form " Aspirin " "Pharmacy" "4.50" "5")
      Example.staff Example.fresh
  /\ ~ insert_get_as_specified Example.int_max_str_digits (Example.env 7)
         (Example.product_form "Gauze" "Pharmacy" "1.20"
            "9223372036854775808")
         Example.staff Example.fresh.
Proof.
  split; intros H.
  - destruct (H (S754_finite false 5066549580791808 (-50)) 5
                eq_refl eq_refl eq_refl eq_refl ltac:(discriminate))
      as (_ & r & G & N & _).
    vm_compute in G. inversion G; subst r. discriminate N.
  - destruct (H (S754_finite false 5404319552844595 (-52))
                9223372036854775808
                eq_refl eq_refl eq_refl eq_refl ltac:(discriminate))
      as (G & _).
    vm_compute in G. discriminate G.
Qed.

(** C8 at the id of "Aspirin" in the store holding two products. *)
Lemma delete_then_get_witness :
  delete_as_specified (Example.env 3) 1 Example.staff Example.stocked.
Proof.
  apply (delete_then_get (Example.env 3) 1 Example.staff Example.stocked).
  - reflexivity.
  - reflexivity.
  - vm_compute. repeat constructor; simpl; intuition discriminate.
Defined.

(** C8 (as stated) fails for an id outside the 64-bit range: binding
    2^63 to the statement raises, and [delete_product] flashes that
    error instead of "Product not found.". *)
Lemma delete_huge_id_counterexample :
  fits_int64 9223372036854775808 = false
  /\ flashed
       (delete_product (Example.env 0) 9223372036854775808 Example.staff
          Example.fresh)
     = [danger (fstr ["An error occurred: ";
                      "Python int too large to convert to SQLite INTEGER"])]
  /\ ~ delete_as_specified (Example.env 0) 9223372036854775808 Example.staff
         Example.fresh.
Proof.
  split; [reflexivity|]. split; [reflexivity|].
  intros [[[_ H] _] _]. vm_compute in H. discriminate H.
Qed.

(** The gate at an anonymous request to delete product 1. *)
Lemma gate_blocks_anonymous_witness :
  db_after
    (app Example.generate_password_hash Example.check_password_hash
       Example.int_max_str_digits (Example.env 3)
       {| target := url_delete_product 1; method := GET; form := [] |}
       Session.empty Example.stocked)
  = Example.stocked.
Proof.
  apply (gate_blocks_anonymous Example.generate_password_hash
           Example.check_password_hash Example.int_max_str_digits
           (Example.env 3)
           {| target := url_delete_product 1; method := GET; form := [] |}
           Session.empty Example.stocked).
  reflexivity.
Defined.

(** An accepted update of a product that does not exist, on the freshly
    initialised store. *)
Lemma edit_product_unknown_id_witness :
  db_after (Example.edit 999 "Bandage" "Pharmacy" "4.50" "5" Example.fresh)
  = Example.fresh.
Proof.
  apply (edit_product_unknown_id Example.int_max_str_digits (Example.env 0)
           999 (Example.product_form "Bandage" "Pharmacy" "4.50" "5")
           Example.staff Example.fresh); try reflexivity.
  intros n H. vm_compute in H. inversion H. reflexivity.
Defined.

(** The keys of the store holding "Aspirin" and "Gauze". *)
Lemma reachable_keyed_witness : keyed Example.stocked.
Proof.
  exact (reachable_keyed Example.generate_password_hash
           Example.check_password_hash Example.int_max_str_digits
           Example.stocked stocked_reachable).
Defined.

(** The rows of the store holding "Aspirin" and "Gauze". *)
Lemma stored_rows_are_clean_witness :
  Forall clean (products Example.stocked).
Proof.
  exact (stored_rows_are_clean Example.generate_password_hash
           Example.check_password_hash Example.int_max_str_digits
           Example.stocked stocked_reachable).
Defined.

(** An insertion attempted while the database cannot be opened. *)
Lemma no_database_no_effect_witness :
  db_after
    (app Example.generate_password_hash Example.check_password_hash
       Example.int_max_str_digits Example.offline
       (Example.add_request "Gauze" "Pharmacy" "1.20" "50")
       Example.staff Example.fresh)
  = Example.fresh.
Proof.
  apply (no_database_no_effect Example.generate_password_hash
           Example.check_password_hash Example.int_max_str_digits
           Example.offline
           (Example.add_request "Gauze" "Pharmacy" "1.20" "50")
           Example.staff Example.fresh).
  reflexivity.
Defined.

(** Renaming "Aspirin" (id 1) in the store holding two products. *)
Lemma update_then_get_witness :
  returned (Example.edit 1 " Ibuprofen" "Pharmacy " "3" "7" Example.stocked)
  = redirect ep_dashboard.
Proof.
  refine (proj1 (update_then_get Example.int_max_str_digits (Example.env 0)
                   (Example.env 9) 1
                   (Example.product_form " Ibuprofen" "Pharmacy " "3" "7")
                   Example.staff Example.staff Example.stocked
                   {| Product.id := 1; Product.product_name := "Aspirin";
                      Product.category := "Pharmacy";
                      Product.price :=
                        S754_finite false 5066549580791808 (-50);
                      Product.quantity := 5; Product.created_at := 1 |}
                   (S754_finite false 6755399441055744 (-51)) 7
                   _ _ _ _ _ _ _ _ _));
    try reflexivity; vm_compute; discriminate.
Defined.

(** The same update of product 1, submitted twice. *)
Lemma update_twice_same_store_witness :
  db_after
    (Example.edit 1 " Ibuprofen" "Pharmacy " "3" "7"
       (db_after
          (Example.edit 1 " Ibuprofen" "Pharmacy " "3" "7" Example.stocked)))
  = db_after
      (Example.edit 1 " Ibuprofen" "Pharmacy " "3" "7" Example.stocked).
Proof.
  apply (update_twice_same_store Example.int_max_str_digits (Example.env 0)
           (Example.env 0) 1
           (Example.product_form " Ibuprofen" "Pharmacy " "3" "7")
           Example.staff Example.staff Example.stocked).
  reflexivity.
Defined.

(** Product 2 deleted twice. *)
Lemma delete_twice_not_found_witness :
  flashed
    (delete_product (Example.env 5) 2 Example.staff
       (db_after (delete_product (Example.env 4) 2 Example.staff
                    Example.stocked)))
  = [danger "Product not found."].
Proof.
  rewrite (delete_twice_not_found (Example.env 4) (Example.env 5) 2
             Example.staff Example.staff Example.stocked);
    reflexivity.
Defined.

(** The administrator logging in on the freshly initialised store. *)
Lemma login_grants_only_stored_users_witness :
  exists u : User.row,
    In u (users Example.fresh)
    /\ User.username u = "admin"
    /\ Example.check_password_hash (User.password u) "admin123" = true.
Proof.
  destruct (login_grants_only_stored_users Example.check_password_hash
              (Example.env 0) POST (Example.login_form " admin" "admin123")
              Session.empty Example.fresh eq_refl eq_refl)
    as (u & Hin & Hu & Hc & _).
  exists u. now repeat split.
Defined.

(** The seeded account on a new file, with the stand-in hasher. *)
Lemma seeded_admin_can_log_in_witness :
  returned
    (login Example.check_password_hash (Example.env 1) POST
       (Example.login_form "admin " "admin123") Session.empty
       (init_db Example.generate_password_hash (Example.env 0) Sqlite.empty))
  = redirect ep_dashboard.
Proof.
  rewrite (seeded_admin_can_log_in Example.generate_password_hash
             Example.check_password_hash (Example.env 0) (Example.env 1)
             (Example.login_form "admin " "admin123") Session.empty
             Sqlite.empty);
    reflexivity.
Defined.

(** Logging out, then asking for the dashboard. *)
Lemma logout_ends_access_witness :
  returned
    (app Example.generate_password_hash Example.check_password_hash
       Example.int_max_str_digits (Example.env 1)
       {| target := url_dashboard; method := GET; form := [] |}
       (session_after
          (app Example.generate_password_hash Example.check_password_hash
             Example.int_max_str_digits (Example.env 0) logout_request
             Example.staff Example.stocked))
       (db_after
          (app Example.generate_password_hash Example.check_password_hash
             Example.int_max_str_digits (Example.env 0) logout_request
             Example.staff Example.stocked)))
  = redirect ep_login.
Proof.
  destruct (logout_ends_access Example.generate_password_hash
              Example.check_password_hash Example.int_max_str_digits
              (Example.env 0) (Example.env 1)
              {| target := url_dashboard; method := GET; form := [] |}
              Example.staff Example.stocked eq_refl)
    as (_ & _ & _ & _ & _ & [H | H]); [exact H | discriminate H].
Defined.

(** The dashboard of the store holding "Aspirin" and "Gauze". *)
Lemma dashboard_page_consistent_witness :
  total_products
    {| total_products := 2; total_stock := 55; low_stock_count := 1 |}
  = Z.of_nat
      (List.length
         (page_products
            (returned
               (dashboard (Example.env 3) Example.staff Example.stocked)))).
Proof.
  refine (proj1 (dashboard_page_consistent (Example.env 3) Example.staff
                   Example.stocked _ _ (Some 10) _)).
  reflexivity.
Defined.

(** "Bandage", 3 in stock, added to the store holding two products. *)
Lemma insert_moves_statistics_witness :
  page_stats
    (returned
       (dashboard (Example.env 4) Example.staff
          (db_after
             (Example.add 3 "Bandage" "Pharmacy" "0.80" "3"
                Example.stocked))))
  = Some {| total_products := 3; total_stock := 58; low_stock_count := 2 |}.
Proof.
  refine (insert_moves_statistics Example.int_max_str_digits (Example.env 3)
            (Example.env 4)
            (Example.product_form "Bandage" "Pharmacy" "0.80" "3")
            Example.staff Example.staff Example.stocked
            (S754_finite false 7205759403792794 (-53)) 3 _ _ _ _ _ _ _ _);
    try reflexivity.
  - vm_compute. repeat constructor; discriminate.
  - vm_compute. discriminate.
Defined.

(** A refused update of product 1 in the store holding two products. *)
Lemma refused_update_rereads_the_row_witness :
  returned (Example.edit 1 "" "Pharmacy" "3" "7" Example.stocked)
  = edit_product_html
      {| Product.id := 1; Product.product_name := "Aspirin";
         Product.category := "Pharmacy";
         Product.price := S754_finite false 5066549580791808 (-50);
         Product.quantity := 5; Product.created_at := 1 |}.
Proof.
  unfold Example.edit.
  rewrite (refused_update_rereads_the_row Example.int_max_str_digits
             (Example.env 0) 1
             (Example.product_form "" "Pharmacy" "3" "7")
             Example.staff Example.stocked);
    try reflexivity.
  vm_compute. discriminate.
Defined.

(** The price "nan". *)
Lemma unstorable_submission_is_reported_witness :
  flashed (Example.add 3 "Bandage" "Pharmacy" "nan" "3" Example.stocked)
  = [danger "An error occurred: NOT NULL constraint failed: products.price"].
Proof.
  unfold Example.add.
  rewrite (unstorable_submission_is_reported Example.int_max_str_digits
             (Example.env 3)
             (Example.product_form "Bandage" "Pharmacy" "nan" "3")
             Example.staff Example.stocked S754_nan 3);
    try reflexivity.
  now left.
Defined.

(** C3 at the submission ("Bandage", "", "-1", "abc"). *)
Lemma validation_reports_every_violation_witness :
  price_is_a_number (Example.product_form "Bandage" "" "-1" "abc")
  /\ add_product Example.int_max_str_digits (Example.env 1) POST
       (Example.product_form "Bandage" "" "-1" "abc") Example.staff
       Example.fresh
     = finish add_product_html
         [danger "Category is required.";
          danger "Price cannot be negative.";
          danger "Please enter a valid quantity."]
         Example.staff Example.fresh [].
Proof.
  assert (N : price_is_a_number
                (Example.product_form "Bandage" "" "-1" "abc"))
    by (vm_compute; discriminate).
  split; [exact N|].
  refine (proj1 (proj2 (validation_reports_every_violation
                          Example.int_max_str_digits (Example.env 1) 1
                          (Example.product_form "Bandage" "" "-1" "abc")
                          Example.staff Example.fresh N)) _).
  vm_compute. discriminate.
Defined.

(** C3 (as stated) fails in two ways.  An update made while the
    database cannot be opened is answered before validation runs: the
    submission ("", "Pharmacy", "3", "7") breaks the name rule and
    "Database connection error." is all that is flashed.  And the price
    "nan" converts to a NaN, which is neither below zero nor at least
    zero: the submission ("Bandage", "Pharmacy", "nan", "3") breaks the
    price rule, validation collects nothing, and what the user sees is
    the error of the database. *)
Lemma validation_unreported_counterexample :
  violations Example.int_max_str_digits
    (Example.product_form "" "Pharmacy" "3" "7") = [EmptyName]
  /\ flashed
       (edit_product Example.int_max_str_digits Example.offline 1 POST
          (Example.product_form "" "Pharmacy" "3" "7") Example.staff
          Example.stocked)
     = [danger "Database connection error."]
  /\ ~ reports_every_violation Example.int_max_str_digits
         (Example.product_form "" "Pharmacy" "3" "7")
         (edit_product Example.int_max_str_digits Example.offline 1 POST
            (Example.product_form "" "Pharmacy" "3" "7") Example.staff
            Example.stocked)
  /\ violations Example.int_max_str_digits
       (Example.product_form "Bandage" "Pharmacy" "nan" "3")
     = [NegativePrice]
  /\ errors
       (validate Example.int_max_str_digits
          (Example.product_form "Bandage" "Pharmacy" "nan" "3")) = []
  /\ flashed (Example.add 3 "Bandage" "Pharmacy" "nan" "3" Example.stocked)
     = [danger
          "An error occurred: NOT NULL constraint failed: products.price"]
  /\ ~ reports_every_violation Example.int_max_str_digits
         (Example.product_form "Bandage" "Pharmacy" "nan" "3")
         (Example.add 3 "Bandage" "Pharmacy" "nan" "3" Example.stocked).
Proof.
  split; [vm_compute; reflexivity|].
  split; [vm_compute; reflexivity|].
  split.
  { intros H. specialize (H EmptyName).
    vm_compute in H. destruct H as [H | []]; [now left|discriminate H]. }
  split; [vm_compute; reflexivity|].
  split; [vm_compute; reflexivity|].
  split; [vm_compute; reflexivity|].
  intros H. specialize (H NegativePrice).
  vm_compute in H. destruct H as [H | []]; [now left|discriminate H].
Qed.


(** C9 at the store holding "Aspirin" (created at 1) and "Gauze"
    (created at 2). *)
Lemma list_all_newest_first_witness :
  list_all_as_specified (Example.env 3) Example.staff Example.stocked
  /\ map row
       (page_products
          (returned (dashboard (Example.env 3) Example.staff
                       Example.stocked)))
     = order_by_created_at_desc (products Example.stocked).
Proof.
  apply (list_all_newest_first (Example.env 3) Example.staff
           Example.stocked).
  - reflexivity.
  - vm_compute. repeat constructor; discriminate.
  - vm_compute. discriminate.
Defined.

(** C9 (as stated) fails on a store that two insertions reach: with two
    rows of quantity 2^63 - 1 the statistics query raises after the
    listing was read, and the page lists no product although two are
    stored.  It fails as well whenever the database cannot be opened. *)
Lemma list_all_empty_counterexample :
  reachable Example.generate_password_hash Example.check_password_hash
    Example.int_max_str_digits Example.overstocked
  /\ List.length (products Example.overstocked) = 2%nat
  /\ page_products
       (returned (dashboard (Example.env 3) Example.staff
                    Example.overstocked)) = []
  /\ ~ list_all_as_specified (Example.env 3) Example.staff
         Example.overstocked
  /\ List.length (products Example.stocked) = 2%nat
  /\ page_products
       (returned (dashboard Example.offline Example.staff Example.stocked))
     = []
  /\ ~ list_all_as_specified Example.offline Example.staff Example.stocked.
Proof.
  split; [exact overstocked_reachable|].
  split; [vm_compute; reflexivity|].
  split; [vm_compute; reflexivity|].
  split.
  { intros [P _]. apply Permutation_length in P.
    vm_compute in P. discriminate P. }
  split; [vm_compute; reflexivity|].
  split; [vm_compute; reflexivity|].
  intros [P _]. apply Permutation_length in P.
  vm_compute in P. discriminate P.
Qed.
